(** * Olympics data visualizer: ingestion and query layer of [flask-api/app2.py]

    A shallow embedding of the Flask application: the one-time creation of
    [olympics.db] from three CSV files, the SQLAlchemy queries behind the JSON
    endpoints, and the URL rules that dispatch a request to a view function.

    Conventions of the model.
    - Text is a [string]; one [ascii] stands for one character, with the code
      it has in Unicode: the model has the characters with a code below 256.
      SQLite folds case only for the letters A-Z, and so does [lower] below.
    - A text column may be NULL (a blank cell of the CSV file): its values are
      [option string].  An integer column holds integers: a data frame holds
      them as Python has them, any [Z]; a table of the database holds only
      integers of 64 bits, which is what SQLite stores.  A blank cell in an
      integer column makes pandas read the column as floating point and is
      outside this model.
    - [ORDER BY] is modelled by a merge sort on the ordering keys; only the
      keys constrain the order of the rows.
    - Limits on sizes are not modelled: SQLite refuses a [LIKE] pattern of
      more than 50000 bytes, and Python, from 3.11 on, the conversion of more
      than 4300 digits to an integer.  The segments of a path are taken to
      be shorter.
    - Logging is not modelled. *)

From Stdlib Require Import ZArith String Ascii List Lia.
From stdpp Require Import base decidable list sorting strings gmap pretty.

Local Open Scope Z_scope.

(** ** Integers of 64 bits *)

(** What SQLite stores as INTEGER, and what [sqlite3] accepts as a bound
    parameter. *)
Definition in_int64 (n : Z) : bool :=
  (-9223372036854775808 <=? n) && (n <=? 9223372036854775807).

(** ** Model classes *)

Module Athletes.
Record t := Row {
  Year : Z;
  Country : option string;
  Host : Z;
  Athletes : Z;
  Sports : Z;
  Events : Z;
  Gold : Z;
  Silver : Z;
  Bronze : Z;
  Medals : Z
}.

Definition integers (a : t) : list Z :=
  [Year a; Host a; Athletes a; Sports a; Events a; Gold a; Silver a;
   Bronze a; Medals a].
End Athletes.

Module HostCountry.
Record t := Row {
  Year : Z;
  Country : option string;
  City : option string
}.

Definition integers (h : t) : list Z := [Year h].
End HostCountry.

Module SummerOlympicsHost.
Record t := Row {
  Year : Z;
  Host : option string
}.

Definition integers (h : t) : list Z := [Year h].
End SummerOlympicsHost.

(** ** The database file and the files around it *)

(** Every integer of the rows fits 64 bits; an absent table has none. *)
Definition stored {A} (integers : A → list Z) (table : option (list A))
    : bool :=
  match table with
  | Some rows => forallb (λ r, forallb in_int64 (integers r)) rows
  | None => true
  end.

(** The SQLite file [olympics.db]: each of the three tables is either absent
    or holds a list of rows, with integers of 64 bits. *)
Record Database := {
  host_country : option (list HostCountry.t);
  summer_olympics_host : option (list SummerOlympicsHost.t);
  athletes : option (list Athletes.t);
  host_country_stored : Is_true (stored HostCountry.integers host_country);
  summer_olympics_host_stored :
    Is_true (stored SummerOlympicsHost.integers summer_olympics_host);
  athletes_stored : Is_true (stored Athletes.integers athletes)
}.

Definition empty_database : Database :=
  {| host_country := None; summer_olympics_host := None; athletes := None;
     host_country_stored := I; summer_olympics_host_stored := I;
     athletes_stored := I |}.

(** The working directory: the database file, if it exists, and the three
    CSV files under [data/], each as the data frame [pd.read_csv] makes of it
    ([None]: the file is missing or cannot be parsed). *)
Record Files := {
  olympics_db : option Database;
  host_country_csv : option (list HostCountry.t);
  Summer_Olympics_Host_csv : option (list SummerOlympicsHost.t);
  summer_athlete_medals_count_csv : option (list Athletes.t)
}.

(** ** Exceptions and state *)

Inductive outcome (A : Type) : Type :=
| Returned (a : A)
| Raised (e : string).
Arguments Returned {A} a.
Arguments Raised {A} e.

(** Computations on the working directory that may raise. *)
Definition IO (A : Type) : Type := Files → Files * outcome A.

Global Instance IO_ret : MRet IO := λ A (a : A) fs, (fs, Returned a).

Global Instance IO_bind : MBind IO := λ A B (k : A → IO B) (m : IO A) fs,
  match m fs with
  | (fs', Returned a) => k a fs'
  | (fs', Raised e) => (fs', Raised e)
  end.

Definition os_path_exists_olympics_db : IO bool :=
  λ fs, (fs, Returned (bool_decide (is_Some (olympics_db fs)))).

(** [sqlite3.connect('olympics.db')] opens the file and creates it, without
    tables, when it is absent. *)
Definition sqlite3_connect : IO unit :=
  λ fs, match olympics_db fs with
        | Some _ => (fs, Returned tt)
        | None =>
            ({| olympics_db := Some empty_database;
                host_country_csv := host_country_csv fs;
                Summer_Olympics_Host_csv := Summer_Olympics_Host_csv fs;
                summer_athlete_medals_count_csv :=
                  summer_athlete_medals_count_csv fs |},
             Returned tt)
        end.

Definition read_csv {A} (file : Files → option A) (name : string) : IO A :=
  λ fs, match file fs with
        | Some df => (fs, Returned df)
        | None => (fs, Raised ("No such file or directory: " +:+ name))
        end.

(** Writing a data frame as a table, [if_exists='replace']: the table is
    dropped and created anew, then the rows are inserted.  An integer that
    does not fit 64 bits makes the insertion raise; the rows are then
    rolled back and the new table stays empty. *)
Definition replace_host_country (df : list HostCountry.t) (db : Database)
    : Database + Database :=
  match decide (Is_true (stored HostCountry.integers (Some df))) with
  | left H =>
      inl {| host_country := Some df;
             summer_olympics_host := summer_olympics_host db;
             athletes := athletes db;
             host_country_stored := H;
             summer_olympics_host_stored := summer_olympics_host_stored db;
             athletes_stored := athletes_stored db |}
  | right _ =>
      inr {| host_country := Some [];
             summer_olympics_host := summer_olympics_host db;
             athletes := athletes db;
             host_country_stored := I;
             summer_olympics_host_stored := summer_olympics_host_stored db;
             athletes_stored := athletes_stored db |}
  end.

Definition replace_summer_olympics_host
    (df : list SummerOlympicsHost.t) (db : Database) : Database + Database :=
  match decide (Is_true (stored SummerOlympicsHost.integers (Some df))) with
  | left H =>
      inl {| host_country := host_country db;
             summer_olympics_host := Some df;
             athletes := athletes db;
             host_country_stored := host_country_stored db;
             summer_olympics_host_stored := H;
             athletes_stored := athletes_stored db |}
  | right _ =>
      inr {| host_country := host_country db;
             summer_olympics_host := Some [];
             athletes := athletes db;
             host_country_stored := host_country_stored db;
             summer_olympics_host_stored := I;
             athletes_stored := athletes_stored db |}
  end.

Definition replace_athletes (df : list Athletes.t) (db : Database)
    : Database + Database :=
  match decide (Is_true (stored Athletes.integers (Some df))) with
  | left H =>
      inl {| host_country := host_country db;
             summer_olympics_host := summer_olympics_host db;
             athletes := Some df;
             host_country_stored := host_country_stored db;
             summer_olympics_host_stored := summer_olympics_host_stored db;
             athletes_stored := H |}
  | right _ =>
      inr {| host_country := host_country db;
             summer_olympics_host := summer_olympics_host db;
             athletes := Some [];
             host_country_stored := host_country_stored db;
             summer_olympics_host_stored := summer_olympics_host_stored db;
             athletes_stored := I |}
  end.

(** [df.to_sql(name, conn, index=False, if_exists='replace')], with the
    table and the frame in [write]: [inl] is the database with the table
    written, [inr] the database the failed insertion leaves. *)
Definition to_sql (write : Database → Database + Database) : IO unit :=
  λ fs, match olympics_db fs with
        | Some db =>
            let files db' :=
              {| olympics_db := Some db';
                 host_country_csv := host_country_csv fs;
                 Summer_Olympics_Host_csv := Summer_Olympics_Host_csv fs;
                 summer_athlete_medals_count_csv :=
                   summer_athlete_medals_count_csv fs |} in
            match write db with
            | inl db' => (files db', Returned tt)
            | inr db' =>
                (files db',
                 Raised "Python int too large to convert to SQLite INTEGER")
            end
        | None => (fs, Raised "unable to open database file")
        end.

(** [conn.close()]: the file stays as written. *)
Definition sqlite3_close : IO unit := mret ().

(** ** Ingestion *)

(** The [except] clause logs and re-raises, so an exception of the body is the
    exception of the call. *)
Definition create_db_from_csv : IO unit :=
  db_exists ← os_path_exists_olympics_db;
  if db_exists : bool then mret tt
  else
    sqlite3_connect;;
    host_country_df ← read_csv host_country_csv "data/host_country.csv";
    summer_olympics_host_df ←
      read_csv Summer_Olympics_Host_csv "data/Summer_Olympics_Host.csv";
    summer_athlete_medals_df ←
      read_csv summer_athlete_medals_count_csv
               "data/summer_athlete_medals_count.csv";
    to_sql (replace_host_country host_country_df);;
    to_sql (replace_summer_olympics_host summer_olympics_host_df);;
    to_sql (replace_athletes summer_athlete_medals_df);;
    sqlite3_close;;
    mret tt.




(** ** The SQL the queries compile to *)

(** SQLite's [lower()]: only the 26 letters A-Z change. *)
Definition tolower (c : ascii) : ascii :=
  let n := N_of_ascii c in
  if ((65 <=? n) && (n <=? 90))%N then ascii_of_N (n + 32) else c.

Fixpoint lower (s : string) : string :=
  match s with
  | EmptyString => EmptyString
  | String c s' => String (tolower c) (lower s')
  end.

(** SQLite's [LIKE]: [%] in the pattern stands for any run of characters,
    [_] for any one character, and any other character for itself, letters
    compared without case.  No escape character is set. *)
Fixpoint like (pattern s : string) : bool :=
  match pattern with
  | EmptyString =>
      match s with EmptyString => true | String _ _ => false end
  | String c rest =>
      if Ascii.eqb c "%" then
        (fix skip (s : string) : bool :=
           like rest s
           || match s with
              | EmptyString => false
              | String _ s' => skip s'
              end) s
      else
        match s with
        | EmptyString => false
        | String d s' =>
            (Ascii.eqb c "_" || Ascii.eqb (tolower c) (tolower d))
            && like rest s'
        end
  end.

(** [column.ilike(pattern)] is rendered as [lower(column) LIKE lower(pattern)].
    On NULL the comparison is NULL, and [WHERE] drops the row as it does
    on false: a criterion is the test whether its expression is true. *)
Definition ilike (column : option string) (pattern : string) : bool :=
  match column with
  | Some text => like (lower pattern) (lower text)
  | None => false
  end.

(** The values bound to the parameters of a statement, and the values a URL
    rule hands to a view. *)
Inductive argument :=
| IntArg (n : Z)
| StrArg (s : string).

(** A criterion of [filter]: the test it makes on a row, and the value it
    binds. *)
Record criterion := {
  holds : Athletes.t → bool;
  bound : list argument
}.

Definition column_gt (column : Athletes.t → Z) (n : Z) : criterion :=
  {| holds a := column a >? n; bound := [IntArg n] |}.

Definition column_ge (column : Athletes.t → Z) (n : Z) : criterion :=
  {| holds a := column a >=? n; bound := [IntArg n] |}.

Definition column_eq (column : Athletes.t → Z) (n : Z) : criterion :=
  {| holds a := column a =? n; bound := [IntArg n] |}.

Definition column_ilike (column : Athletes.t → option string)
    (pattern : string) : criterion :=
  {| holds a := ilike (column a) pattern; bound := [StrArg pattern] |}.

Inductive column :=
| IntegerColumn (f : Athletes.t → Z)
| StringColumn (f : Athletes.t → option string).

Inductive order_clause :=
| asc (c : column)
| desc (c : column).

(** The order of text under [ORDER BY]: NULL first, then by character code. *)
Definition compare_text (x y : option string) : comparison :=
  match x, y with
  | None, None => Eq
  | None, Some _ => Lt
  | Some _, None => Gt
  | Some s, Some t => String.compare s t
  end.

Definition compare_column (c : column) (a b : Athletes.t) : comparison :=
  match c with
  | IntegerColumn f => f a ?= f b
  | StringColumn f => compare_text (f a) (f b)
  end.

Definition compare_clause (k : order_clause) (a b : Athletes.t) : comparison :=
  match k with
  | asc c => compare_column c a b
  | desc c => compare_column c b a
  end.

Fixpoint compare_rows (ks : list order_clause) (a b : Athletes.t) : comparison :=
  match ks with
  | [] => Eq
  | k :: ks' =>
      match compare_clause k a b with
      | Eq => compare_rows ks' a b
      | c => c
      end
  end.

(** [a] may come before [b] under [ORDER BY ks]. *)
Definition row_le (ks : list order_clause) (a b : Athletes.t) : Prop :=
  compare_rows ks a b ≠ Gt.

Global Instance row_le_dec ks : RelDecision (row_le ks).
Proof. intros a b. unfold row_le. apply _. Defined.

(** What [sqlite3] accepts as the value of a parameter. *)
Definition binds (p : argument) : bool :=
  match p with
  | IntArg n => in_int64 n
  | StrArg _ => true
  end.

Definition repr (p : argument) : string :=
  match p with
  | IntArg n => pretty n
  | StrArg s => "'" +:+ s +:+ "'"
  end.

(** A query on the [athletes] table, built up by the generative methods of
    SQLAlchemy's [Query] and run by [all]. *)
Module Query.
Record t (R : Type) := Build {
  entities : Athletes.t → R;
  is_distinct : bool;
  whereclause : list criterion;
  order_by_clauses : list order_clause
}.
Arguments Build {R}.
Arguments entities {R}.
Arguments is_distinct {R}.
Arguments whereclause {R}.
Arguments order_by_clauses {R}.

Definition query {R} (cols : Athletes.t → R) : t R :=
  Build cols false [] [].

Definition distinct {R} (cols : Athletes.t → R) : t R :=
  Build cols true [] [].

Definition filter {R} (c : criterion) (q : t R) : t R :=
  Build (entities q) (is_distinct q)
        (whereclause q ++ [c]) (order_by_clauses q).

Definition order_by {R} (ks : list order_clause) (q : t R) : t R :=
  Build (entities q) (is_distinct q)
        (whereclause q) (order_by_clauses q ++ ks).

Definition selected {R} (q : t R) (a : Athletes.t) : bool :=
  forallb (λ c, holds c a) (whereclause q).

(** The values bound to the statement, in the order of its criteria. *)
Definition parameters {R} (q : t R) : list argument :=
  concat (bound <$> whereclause q).

(** The rows of the table that the query keeps, in the order it asks for. *)
Definition rows {R} (q : t R) (table : list Athletes.t) : list Athletes.t :=
  merge_sort (row_le (order_by_clauses q)) (List.filter (selected q) table).

Definition result {R} `{EqDecision R} (q : t R) (table : list Athletes.t)
    : list R :=
  let tuples := entities q <$> rows q table in
  if is_distinct q then remove_dups tuples else tuples.

(** The text of the error when the table is missing.  SQLAlchemy's text
    holds the message of SQLite, the SQL of the statement and the values of
    its parameters; the model keeps the message and the parameters. *)
Definition no_such_table {R} (q : t R) : string :=
  "no such table: athletes [parameters: "
  +:+ String.concat ", " (repr <$> parameters q) +:+ "]".

(** SQLite prepares the statement, which fails when the table is missing,
    and then binds the parameters, which fails on an integer beyond 64
    bits. *)
Definition all {R} `{EqDecision R} (db : Database) (q : t R)
    : outcome (list R) :=
  match athletes db with
  | Some table =>
      if forallb binds (parameters q)
      then Returned (result q table)
      else Raised "Python int too large to convert to SQLite INTEGER"
  | None => Raised (no_such_table q)
  end.
End Query.

(** ** Responses *)

Local Unset Elimination Schemes.
Inductive json :=
| JNull
| JInt (n : Z)
| JStr (s : string)
| JList (l : list json)
| JDict (d : gmap string json).
Local Set Elimination Schemes.

(** A text column in JSON: NULL is [null]. *)
Definition json_text (text : option string) : json :=
  match text with
  | Some s => JStr s
  | None => JNull
  end.

Inductive body :=
| Json (j : json)
| Html (template : string)
| Text (text : string).

Record Response := {
  response_body : body;
  status_code : Z
}.

Definition dict (items : list (string * json)) : gmap string json :=
  list_to_map items.

Definition jsonify (j : json) : body := Json j.

(** The templates are files outside [app2.py]; what rendering one gives is
    a parameter of the views: [None] when the template renders, [Some e]
    when rendering raises an exception with the text [e]. *)
Definition Templates : Type := string → option string.

Definition render_template (templates : Templates) (name : string)
    : outcome body :=
  match templates name with
  | None => Returned (Html name)
  | Some e => Raised e
  end.

(** A view that returns a body alone answers with status 200. *)
Definition ok (b : body) : Response :=
  {| response_body := b; status_code := 200 |}.

Definition with_status (b : body) (code : Z) : Response :=
  {| response_body := b; status_code := code |}.

Definition error_response (e : string) : Response :=
  with_status (jsonify (JDict (dict [("error", JStr e)]))) 500.

(** ** View functions *)

(** *** The pages *)

Definition home (templates : Templates) : Response :=
  match render_template templates "index1.html" with
  | Returned page => ok page
  | Raised e => error_response e
  end.

Definition analysis (templates : Templates) : Response :=
  match render_template templates "analysis1.html" with
  | Returned page => ok page
  | Raised e => with_status (Text ("An error occurred: " +:+ e)) 500
  end.

Definition olympic_facts (templates : Templates) : Response :=
  match render_template templates "olympic_facts.html" with
  | Returned page => ok page
  | Raised e => error_response e
  end.

Definition machine_learning (templates : Templates) : Response :=
  match render_template templates "machine_learning.html" with
  | Returned page => ok page
  | Raised e => error_response e
  end.

(** The handler of 404 has no [try]: an exception of the template is an
    exception of the handler. *)
Definition page_not_found (templates : Templates) : outcome Response :=
  match render_template templates "404.html" with
  | Returned page => Returned (with_status page 404)
  | Raised e => Raised e
  end.

(** *** /api/all-medal-winners and /api/all-medal-winners/<country_name> *)

Definition entire_data_dump_query (country_name : option string)
    : Query.t (Z * option string * Z * Z * Z * Z * Z * Z * Z) :=
  let query :=
    Query.filter (column_gt Athletes.Medals 0)
      (Query.query (λ a,
         (Athletes.Year a, Athletes.Country a, Athletes.Athletes a,
          Athletes.Sports a, Athletes.Events a, Athletes.Gold a,
          Athletes.Silver a, Athletes.Bronze a, Athletes.Medals a))) in
  let query :=
    match country_name with
    | Some name =>
        Query.filter
          (column_ilike Athletes.Country ("%" +:+ name +:+ "%")) query
    | None => query
    end in
  Query.order_by [asc (IntegerColumn Athletes.Year);
                  asc (StringColumn Athletes.Country)] query.

Definition athlete_dict
    (row : Z * option string * Z * Z * Z * Z * Z * Z * Z) : json :=
  let '(year, country, athletes, sports, events, gold, silver, bronze, medals)
    := row in
  JDict (dict [("year", JInt year); ("country", json_text country);
               ("athletes", JInt athletes); ("sports", JInt sports);
               ("events", JInt events); ("gold", JInt gold);
               ("silver", JInt silver); ("bronze", JInt bronze);
               ("medals", JInt medals)]).

Definition entire_data_dump (db : Database) (country_name : option string)
    : Response :=
  match Query.all db (entire_data_dump_query country_name) with
  | Returned rows => ok (jsonify (JList (athlete_dict <$> rows)))
  | Raised e => error_response e
  end.

(** *** /api/medals-tally/<int:selected_year> *)

Definition total_medal_tally_query (selected_year : Z)
    : Query.t (Z * option string * Z * Z * Z * Z) :=
  Query.order_by [desc (IntegerColumn Athletes.Medals)]
    (Query.filter (column_eq Athletes.Year selected_year)
       (Query.query (λ a,
          (Athletes.Year a, Athletes.Country a, Athletes.Gold a,
           Athletes.Silver a, Athletes.Bronze a, Athletes.Medals a)))).

(** The dictionary of the medal views, keyed in lower case. *)
Definition country_dict (row : Z * option string * Z * Z * Z * Z) : json :=
  let '(year, country, gold, silver, bronze, total_medals) := row in
  JDict (dict [("year", JInt year); ("country", json_text country);
               ("gold", JInt gold); ("silver", JInt silver);
               ("bronze", JInt bronze); ("total_medals", JInt total_medals)]).

Definition total_medal_tally (db : Database) (selected_year : Z) : Response :=
  match Query.all db (total_medal_tally_query selected_year) with
  | Returned rows => ok (jsonify (JList (country_dict <$> rows)))
  | Raised e => error_response e
  end.

(** *** /api/total-medals *)

Definition total_medals_query : Query.t (Z * option string * Z) :=
  Query.order_by [asc (IntegerColumn Athletes.Year);
                  desc (IntegerColumn Athletes.Medals)]
    (Query.filter (column_ge Athletes.Year 1980)
       (Query.query (λ a,
          (Athletes.Year a, Athletes.Country a, Athletes.Medals a)))).

Definition country_medals_dict (row : Z * option string * Z) : json :=
  let '(year, country, totalmedals) := row in
  JDict (dict [("year", JInt year); ("country", json_text country);
               ("total_medals", JInt totalmedals)]).

Definition total_medals (db : Database) : Response :=
  match Query.all db total_medals_query with
  | Returned rows => ok (jsonify (JList (country_medals_dict <$> rows)))
  | Raised e => error_response e
  end.

(** *** /api/host-countries *)

Definition host_countries_query
    : Query.t (Z * option string * Z * Z * Z * Z * Z) :=
  Query.order_by [asc (IntegerColumn Athletes.Year)]
    (Query.filter (column_eq Athletes.Host 1)
       (Query.query (λ a,
          (Athletes.Year a, Athletes.Country a, Athletes.Host a,
           Athletes.Gold a, Athletes.Silver a, Athletes.Bronze a,
           Athletes.Medals a)))).

Definition host_dict (row : Z * option string * Z * Z * Z * Z * Z) : json :=
  let '(year, country, host, gold, silver, bronze, medals) := row in
  JDict (dict [("year", JInt year); ("country", json_text country);
               ("gold", JInt gold); ("silver", JInt silver);
               ("bronze", JInt bronze); ("total_medals", JInt medals)]).

Definition host_countries (db : Database) : Response :=
  match Query.all db host_countries_query with
  | Returned rows => ok (jsonify (JList (host_dict <$> rows)))
  | Raised e => error_response e
  end.

(** *** /api/country/<selected_country> *)

Definition country_medals_query (selected_country : string)
    : Query.t (Z * option string * Z * Z * Z * Z) :=
  Query.order_by [asc (IntegerColumn Athletes.Year)]
    (Query.filter
       (column_ilike Athletes.Country ("%" +:+ selected_country +:+ "%"))
       (Query.query (λ a,
          (Athletes.Year a, Athletes.Country a, Athletes.Gold a,
           Athletes.Silver a, Athletes.Bronze a, Athletes.Medals a)))).

Definition country_medals (db : Database) (selected_country : string)
    : Response :=
  match Query.all db (country_medals_query selected_country) with
  | Returned rows => ok (jsonify (JList (country_dict <$> rows)))
  | Raised e => error_response e
  end.

(** *** /api/medals-tally/years_after_1960 *)

Definition total_medal_tally_year_after_1960_query
    : Query.t (Z * option string * Z * Z * Z * Z) :=
  Query.order_by [asc (IntegerColumn Athletes.Year);
                  desc (IntegerColumn Athletes.Medals)]
    (Query.filter (column_ge Athletes.Year 1960)
       (Query.query (λ a,
          (Athletes.Year a, Athletes.Country a, Athletes.Gold a,
           Athletes.Silver a, Athletes.Bronze a, Athletes.Medals a)))).

(** The dictionary of this view alone, keyed with capitals. *)
Definition nation_dict (row : Z * option string * Z * Z * Z * Z) : json :=
  let '(year, country, gold, silver, bronze, total_medals) := row in
  JDict (dict [("Year", JInt year); ("Nation", json_text country);
               ("Gold", JInt gold); ("Silver", JInt silver);
               ("Bronze", JInt bronze); ("Medals", JInt total_medals)]).

Definition total_medal_tally_year_after_1960 (db : Database) : Response :=
  match Query.all db total_medal_tally_year_after_1960_query with
  | Returned rows => ok (jsonify (JList (nation_dict <$> rows)))
  | Raised e => error_response e
  end.

(** *** /api/countries and /api/years *)

Definition get_countries_query : Query.t (option string) :=
  Query.order_by [asc (StringColumn Athletes.Country)]
    (Query.distinct Athletes.Country).

Definition get_countries (db : Database) : Response :=
  match Query.all db get_countries_query with
  | Returned rows => ok (jsonify (JList (json_text <$> rows)))
  | Raised e => error_response e
  end.

Definition get_years_query : Query.t Z :=
  Query.order_by [asc (IntegerColumn Athletes.Year)]
    (Query.distinct Athletes.Year).

Definition get_years (db : Database) : Response :=
  match Query.all db get_years_query with
  | Returned rows => ok (jsonify (JList (JInt <$> rows)))
  | Raised e => error_response e
  end.

(** ** URL rules *)

(** A request path is the list of its segments: [/api/years] is
    [["api"; "years"]] and [/] is [[]].  Requests are GET requests. *)

Definition is_digit (c : ascii) : bool :=
  let n := N_of_ascii c in ((48 <=? n) && (n <=? 57))%N.

Definition digit_value (c : ascii) : Z := Z.of_N (N_of_ascii c) - 48.

Fixpoint int_of_digits (acc : Z) (s : string) : option Z :=
  match s with
  | EmptyString => Some acc
  | String c s' =>
      if is_digit c then int_of_digits (10 * acc + digit_value c) s' else None
  end.

(** The converter [int]: one or more of the digits 0-9, read in base ten;
    no sign.  (The pattern of the converter also takes the decimal digits of
    other scripts; none of them has a code below 256.) *)
Definition IntegerConverter (segment : string) : option Z :=
  match segment with
  | EmptyString => None
  | String _ _ => int_of_digits 0 segment
  end.

(** The default converter: any segment that is not empty. *)
Definition UnicodeConverter (segment : string) : option string :=
  match segment with
  | EmptyString => None
  | String _ _ => Some segment
  end.

Inductive part :=
| static (s : string)
| int_converter
| default_converter.

Fixpoint match_rule (rule : list part) (path : list string)
    : option (list argument) :=
  match rule, path with
  | [], [] => Some []
  | static s :: rule', segment :: path' =>
      if decide (s = segment) then match_rule rule' path' else None
  | int_converter :: rule', segment :: path' =>
      n ← IntegerConverter segment;
      args ← match_rule rule' path';
      Some (IntArg n :: args)
  | default_converter :: rule', segment :: path' =>
      s ← UnicodeConverter segment;
      args ← match_rule rule' path';
      Some (StrArg s :: args)
  | _, _ => None
  end.

Module endpoint.
Inductive t :=
| home
| analysis
| olympic_facts
| machine_learning
| entire_data_dump
| total_medal_tally
| total_medals
| host_countries
| country_medals
| total_medal_tally_year_after_1960
| get_countries
| get_years.
End endpoint.

(** The rules the [@app.route] decorators register, in the order of the file.
    [match_rules] takes the first rule that matches; Werkzeug weighs the rules
    first, which makes a difference only where two rules match one path. *)
Definition url_map : list (list part * endpoint.t) :=
  [ ([static "index.html"], endpoint.home);
    ([], endpoint.analysis);
    ([static "olympic_facts.html"], endpoint.olympic_facts);
    ([static "machine_learning"], endpoint.machine_learning);
    ([static "api"; static "all-medal-winners"], endpoint.entire_data_dump);
    ([static "api"; static "all-medal-winners"; default_converter],
     endpoint.entire_data_dump);
    ([static "api"; static "medals-tally"; int_converter],
     endpoint.total_medal_tally);
    ([static "api"; static "total-medals"], endpoint.total_medals);
    ([static "api"; static "host-countries"], endpoint.host_countries);
    ([static "api"; static "country"; default_converter],
     endpoint.country_medals);
    ([static "api"; static "medals-tally"; static "years_after_1960"],
     endpoint.total_medal_tally_year_after_1960);
    ([static "api"; static "countries"], endpoint.get_countries);
    ([static "api"; static "years"], endpoint.get_years) ].

Fixpoint match_rules (rules : list (list part * endpoint.t))
    (path : list string) : option (endpoint.t * list argument) :=
  match rules with
  | [] => None
  | (rule, e) :: rules' =>
      match match_rule rule path with
      | Some args => Some (e, args)
      | None => match_rules rules' path
      end
  end.

Definition match_request (path : list string)
    : option (endpoint.t * list argument) :=
  match_rules url_map path.

(** Calling the view of an endpoint with the arguments of the rule. *)
Definition dispatch_request (templates : Templates) (db : Database)
    (e : endpoint.t) (args : list argument) : Response :=
  match e, args with
  | endpoint.home, [] => home templates
  | endpoint.analysis, [] => analysis templates
  | endpoint.olympic_facts, [] => olympic_facts templates
  | endpoint.machine_learning, [] => machine_learning templates
  | endpoint.entire_data_dump, [] => entire_data_dump db None
  | endpoint.entire_data_dump, [StrArg country_name] =>
      entire_data_dump db (Some country_name)
  | endpoint.total_medal_tally, [IntArg selected_year] =>
      total_medal_tally db selected_year
  | endpoint.total_medals, [] => total_medals db
  | endpoint.host_countries, [] => host_countries db
  | endpoint.country_medals, [StrArg selected_country] =>
      country_medals db selected_country
  | endpoint.total_medal_tally_year_after_1960, [] =>
      total_medal_tally_year_after_1960 db
  | endpoint.get_countries, [] => get_countries db
  | endpoint.get_years, [] => get_years db
  | _, _ => error_response "TypeError"
  end.

(** What Flask answers when a handler raises: status 500. *)
Definition handle_exception : Response :=
  with_status (Text "Internal Server Error") 500.

(** A path no rule matches goes to the handler of 404.  Two kinds of path
    are answered by Werkzeug and Flask themselves and are not paths of this
    function: a path with an empty segment before its last one (slashes in
    a row), which Werkzeug redirects when the path with the slashes merged
    matches a rule, and the paths under [/static/], for which Flask has a
    rule of its own. *)
Definition full_dispatch_request (templates : Templates) (db : Database)
    (path : list string) : Response :=
  match match_request path with
  | Some (e, args) => dispatch_request templates db e args
  | None =>
      match page_not_found templates with
      | Returned response => response
      | Raised _ => handle_exception
      end
  end.

(** ** Vocabulary of the statements *)

(** The tuples a query returns, by view, and the columns the statements name. *)
Module winner.
Definition row : Type := Z * option string * Z * Z * Z * Z * Z * Z * Z.
Definition columns (a : Athletes.t) : row :=
  (Athletes.Year a, Athletes.Country a, Athletes.Athletes a,
   Athletes.Sports a, Athletes.Events a, Athletes.Gold a,
   Athletes.Silver a, Athletes.Bronze a, Athletes.Medals a).
Definition year (r : row) : Z :=
  let '(year, _, _, _, _, _, _, _, _) := r in year.
Definition country (r : row) : option string :=
  let '(_, country, _, _, _, _, _, _, _) := r in country.
Definition medals (r : row) : Z :=
  let '(_, _, _, _, _, _, _, _, medals) := r in medals.
End winner.

Module tally.
Definition row : Type := Z * option string * Z * Z * Z * Z.
Definition columns (a : Athletes.t) : row :=
  (Athletes.Year a, Athletes.Country a, Athletes.Gold a,
   Athletes.Silver a, Athletes.Bronze a, Athletes.Medals a).
Definition year (r : row) : Z := let '(year, _, _, _, _, _) := r in year.
Definition country (r : row) : option string :=
  let '(_, country, _, _, _, _) := r in country.
Definition medals (r : row) : Z :=
  let '(_, _, _, _, _, medals) := r in medals.
End tally.

Module host.
Definition row : Type := Z * option string * Z * Z * Z * Z * Z.
Definition columns (a : Athletes.t) : row :=
  (Athletes.Year a, Athletes.Country a, Athletes.Host a, Athletes.Gold a,
   Athletes.Silver a, Athletes.Bronze a, Athletes.Medals a).
Definition year (r : row) : Z := let '(year, _, _, _, _, _, _) := r in year.
Definition host (r : row) : Z := let '(_, _, host, _, _, _, _) := r in host.
End host.

(** Text in ascending order: NULL before every text, and text by the codes
    of its characters. *)
Definition text_le (x y : option string) : Prop :=
  match x, y with
  | None, _ => True
  | Some _, None => False
  | Some s, Some t => String.le s t
  end.

(** Orders on the rows of a result, by their keys. *)
Definition ascending {A} (key : A → Z) : relation A :=
  λ r1 r2, key r1 ≤ key r2.

Definition descending {A} (key : A → Z) : relation A :=
  λ r1 r2, key r2 ≤ key r1.

Definition ascending_then_text {A} (key : A → Z) (text : A → option string)
    : relation A :=
  λ r1 r2, key r1 < key r2 ∨ (key r1 = key r2 ∧ text_le (text r1) (text r2)).

Definition ascending_then_descending {A} (key1 key2 : A → Z) : relation A :=
  λ r1 r2, key1 r1 < key1 r2 ∨ (key1 r1 = key1 r2 ∧ key2 r2 ≤ key2 r1).







(** The records of a JSON response; an error response carries none. *)
Definition records (r : Response) : list json :=
  match response_body r with
  | Json (JList l) => l
  | _ => []
  end.


(** ** Sample data *)

Definition sample_athletes : list Athletes.t :=
  [ Athletes.Row 2000 (Some "Australia") 1 617 34 270 16 25 17 58;
    Athletes.Row 2000 (Some "France") 0 336 31 200 13 14 11 38;
    Athletes.Row 1996 (Some "Fiji") 0 17 5 12 0 0 0 0;
    Athletes.Row 1996 (Some "Germany") 0 465 30 234 20 18 27 65;
    Athletes.Row 1956 (Some "Australia") 1 294 18 140 13 8 14 35 ].

Definition france : Athletes.t :=
  Athletes.Row 2000 (Some "France") 0 336 31 200 13 14 11 38.

(** A database with the given rows of athletes and two empty tables beside. *)
Definition athletes_db (rows : list Athletes.t)
    (fits : Is_true (stored Athletes.integers (Some rows))) : Database :=
  {| host_country := Some [];
     summer_olympics_host := Some [];
     athletes := Some rows;
     host_country_stored := I;
     summer_olympics_host_stored := I;
     athletes_stored := fits |}.

Definition france_db : Database := athletes_db [france] I.

Definition sample_db : Database :=
  {| host_country :=
       Some [HostCountry.Row 2000 (Some "Australia") (Some "Sydney")];
     summer_olympics_host :=
       Some [SummerOlympicsHost.Row 2000 (Some "Sydney")];
     athletes := Some sample_athletes;
     host_country_stored := I;
     summer_olympics_host_stored := I;
     athletes_stored := I |}.

Definition sample_files : Files :=
  {| olympics_db := Some sample_db;
     host_country_csv := None;
     Summer_Olympics_Host_csv := None;
     summer_athlete_medals_count_csv := None |}.

(** A row whose cell of the country was blank in the CSV file. *)
Definition unnamed : Athletes.t :=
  Athletes.Row 2000 None 0 12 3 9 1 0 2 3.

Definition unnamed_db : Database := athletes_db [unnamed] I.






(** ** Vocabulary of the further statements *)

(** A working directory with the three CSV files as they are, and the
    database file [db], if any. *)
Definition directory (db : option Database)
    (host_country_df : option (list HostCountry.t))
    (summer_olympics_host_df : option (list SummerOlympicsHost.t))
    (summer_athlete_medals_df : option (list Athletes.t)) : Files :=
  {| olympics_db := db;
     host_country_csv := host_country_df;
     Summer_Olympics_Host_csv := summer_olympics_host_df;
     summer_athlete_medals_count_csv := summer_athlete_medals_df |}.

(** The endpoints that query the database; the others render a page. *)
Definition queries_database (e : endpoint.t) : bool :=
  match e with
  | endpoint.home | endpoint.analysis | endpoint.olympic_facts
  | endpoint.machine_learning => false
  | _ => true
  end.

(** The arguments a rule hands over are those its view takes. *)
Definition view_accepts (e : endpoint.t) (args : list argument) : Prop :=
  match e, args with
  | endpoint.entire_data_dump, [] => True
  | endpoint.entire_data_dump, [StrArg country_name] =>
      country_name ≠ EmptyString
  | endpoint.total_medal_tally, [IntArg selected_year] => 0 ≤ selected_year
  | endpoint.country_medals, [StrArg selected_country] =>
      selected_country ≠ EmptyString
  | endpoint.entire_data_dump, _ | endpoint.total_medal_tally, _
  | endpoint.country_medals, _ => False
  | _, [] => True
  | _, _ => False
  end.

(** What a view that queries the database answers when its statement runs:
    the list of its records with status 200. *)
Definition list_answer (r : Response) : Prop :=
  status_code r = 200 ∧ ∃ l, response_body r = Json (JList l).

(** What it answers when the statement raises: a dictionary with the one
    key [error], with status 500. *)
Definition error_answer (r : Response) : Prop :=
  status_code r = 500
  ∧ ∃ e, response_body r = Json (JDict (dict [("error", JStr e)])).

(** * Properties *)

(** ** Ordering keys *)

Lemma compare_text_antisym x y :
  compare_text y x = CompOpp (compare_text x y).
Proof. destruct x, y; simpl; try done. apply String.compare_antisym. Qed.

Lemma compare_column_antisym c a b :
  compare_column c b a = CompOpp (compare_column c a b).
Proof.
  destruct c as [f|f]; simpl.
  - apply Z.compare_antisym.
  - apply compare_text_antisym.
Qed.

Lemma compare_clause_antisym k a b :
  compare_clause k b a = CompOpp (compare_clause k a b).
Proof. destruct k; simpl; apply compare_column_antisym. Qed.

Lemma compare_rows_antisym ks a b :
  compare_rows ks b a = CompOpp (compare_rows ks a b).
Proof.
  induction ks as [|k ks IH]; simpl; [done|].
  rewrite (compare_clause_antisym k a b).
  destruct (compare_clause k a b); simpl; auto.
Qed.

Global Instance row_le_total ks : Total (row_le ks).
Proof.
  intros a b. unfold row_le. rewrite (compare_rows_antisym ks a b).
  destruct (compare_rows ks a b); simpl; auto.
Qed.

Lemma string_compare_le s1 s2 :
  String.compare s1 s2 ≠ Gt → String.le s1 s2.
Proof.
  unfold String.le, String.leb. destruct (String.compare s1 s2); simpl; auto.
Qed.

Lemma compare_text_le x y : compare_text x y ≠ Gt → text_le x y.
Proof. destruct x, y; simpl; try done. apply string_compare_le. Qed.

Global Instance text_le_refl : Reflexive text_le.
Proof. intros [s|]; simpl; done. Qed.

Global Instance text_le_trans : Transitive text_le.
Proof. intros [s|] [t|] [u|]; simpl; try done. apply transitivity. Qed.

Global Instance text_le_antisym : AntiSymm (=) text_le.
Proof.
  intros [s|] [t|]; simpl; try done.
  intros ??. f_equal. by apply (anti_symm String.le).
Qed.

Lemma row_le_Year a b :
  row_le [asc (IntegerColumn Athletes.Year)] a b →
  Athletes.Year a ≤ Athletes.Year b.
Proof.
  unfold row_le; simpl.
  destruct (Z.compare_spec (Athletes.Year a) (Athletes.Year b));
    intros Hle; try done; lia.
Qed.

Lemma row_le_Medals_desc a b :
  row_le [desc (IntegerColumn Athletes.Medals)] a b →
  Athletes.Medals b ≤ Athletes.Medals a.
Proof.
  unfold row_le; simpl.
  destruct (Z.compare_spec (Athletes.Medals b) (Athletes.Medals a));
    intros Hle; try done; lia.
Qed.

Lemma row_le_Year_Country a b :
  row_le [asc (IntegerColumn Athletes.Year);
          asc (StringColumn Athletes.Country)] a b →
  Athletes.Year a < Athletes.Year b
  ∨ (Athletes.Year a = Athletes.Year b
     ∧ text_le (Athletes.Country a) (Athletes.Country b)).
Proof.
  unfold row_le; simpl.
  destruct (Z.compare_spec (Athletes.Year a) (Athletes.Year b));
    intros Hle; try done; [|by left].
  right. split; [done|]. apply compare_text_le.
  by destruct (compare_text (Athletes.Country a) (Athletes.Country b)).
Qed.

Lemma row_le_Year_Medals_desc a b :
  row_le [asc (IntegerColumn Athletes.Year);
          desc (IntegerColumn Athletes.Medals)] a b →
  Athletes.Year a < Athletes.Year b
  ∨ (Athletes.Year a = Athletes.Year b
     ∧ Athletes.Medals b ≤ Athletes.Medals a).
Proof.
  unfold row_le; simpl.
  destruct (Z.compare_spec (Athletes.Year a) (Athletes.Year b));
    intros Hle; try done; [|by left].
  right. split; [done|]. revert Hle.
  destruct (Z.compare_spec (Athletes.Medals b) (Athletes.Medals a));
    intros Hle; try done; lia.
Qed.

(** ** Running a query *)

Section query.
Context {R : Type} `{EqDecision R}.
Implicit Types (q : Query.t R) (table : list Athletes.t).

Lemma rows_Permutation q table :
  Query.rows q table ≡ₚ List.filter (Query.selected q) table.
Proof. apply merge_sort_Permutation. Qed.

Lemma rows_Sorted q table :
  Sorted (row_le (Query.order_by_clauses q)) (Query.rows q table).
Proof. apply (Sorted_merge_sort _). Qed.

Lemma elem_of_rows q table a :
  a ∈ Query.rows q table ↔ a ∈ table ∧ Query.selected q a = true.
Proof.
  rewrite rows_Permutation, !list_elem_of_In. apply filter_In.
Qed.

Lemma result_Permutation q table :
  Query.is_distinct q = false →
  Query.result q table
    ≡ₚ Query.entities q <$> List.filter (Query.selected q) table.
Proof.
  intros Hd. unfold Query.result. rewrite Hd.
  by rewrite rows_Permutation.
Qed.

Lemma result_Sorted q table (ord : relation R) :
  Query.is_distinct q = false →
  (∀ a b, row_le (Query.order_by_clauses q) a b →
          ord (Query.entities q a) (Query.entities q b)) →
  Sorted ord (Query.result q table).
Proof.
  intros Hd Hord. unfold Query.result. rewrite Hd.
  eapply Sorted_fmap; [exact Hord|apply rows_Sorted].
Qed.

Lemma elem_of_result q table r :
  r ∈ Query.result q table ↔
  ∃ a, a ∈ table ∧ Query.selected q a = true ∧ r = Query.entities q a.
Proof.
  unfold Query.result.
  assert (r ∈ Query.entities q <$> Query.rows q table ↔
          ∃ a, a ∈ table ∧ Query.selected q a = true
               ∧ r = Query.entities q a) as Hiff.
  { rewrite list_elem_of_fmap. split.
    - intros (a & -> & Ha). apply elem_of_rows in Ha as [??]. eauto.
    - intros (a & ? & ? & ->). exists a. split; [done|].
      by apply elem_of_rows. }
  destruct (Query.is_distinct q); [|done].
  by rewrite elem_of_remove_dups.
Qed.

(** A statement whose parameters bind, on a table that is there, returns
    its result. *)
Lemma all_athletes_table db table q :
  athletes db = Some table →
  forallb binds (Query.parameters q) = true →
  Query.all db q = Returned (Query.result q table).
Proof. intros Ht Hb. unfold Query.all. by rewrite Ht, Hb. Qed.

Lemma records_view db table q (f : R → json) :
  athletes db = Some table →
  forallb binds (Query.parameters q) = true →
  records match Query.all db q with
          | Returned rows => ok (jsonify (JList (f <$> rows)))
          | Raised e => error_response e
          end
  = f <$> Query.result q table.
Proof. intros Ht Hb. by rewrite (all_athletes_table db table). Qed.

(** A statement that raises gives an answer without records. *)
Lemma records_view_raised db q (f : R → json) e :
  Query.all db q = Raised e →
  records match Query.all db q with
          | Returned rows => ok (jsonify (JList (f <$> rows)))
          | Raised e => error_response e
          end
  = [].
Proof. by intros ->. Qed.
End query.

Lemma List_filter_ext_eq {A} (f g : A → bool) (l : list A) :
  (∀ x, f x = g x) → List.filter f l = List.filter g l.
Proof. intros Hfg. induction l as [|x l IH]; simpl; [done|]. by rewrite Hfg, IH. Qed.

(** The integers of a stored row fit 64 bits. *)
Lemma athletes_Year_int64 db table a :
  athletes db = Some table → a ∈ table → in_int64 (Athletes.Year a) = true.
Proof.
  intros Ht Ha. pose proof (athletes_stored db) as Hs. rewrite Ht in Hs.
  apply Is_true_true in Hs. simpl in Hs.
  rewrite forallb_forall in Hs. apply list_elem_of_In in Ha.
  specialize (Hs a Ha). simpl in Hs.
  by apply andb_true_iff in Hs as [? _].
Qed.

Global Instance ascending_trans {A} (key : A → Z) : Transitive (ascending key).
Proof. unfold ascending. intros x y z ??. lia. Qed.

Global Instance descending_trans {A} (key : A → Z) : Transitive (descending key).
Proof. unfold descending. intros x y z ??. lia. Qed.

Global Instance ascending_then_text_trans {A}
    (key : A → Z) (text : A → option string) :
  Transitive (ascending_then_text key text).
Proof.
  unfold ascending_then_text.
  intros x y z [?|[? Hxy]] [?|[? Hyz]]; try (left; lia).
  right. split; [lia|]. by etrans.
Qed.

Global Instance ascending_then_descending_trans {A} (key1 key2 : A → Z) :
  Transitive (ascending_then_descending key1 key2).
Proof.
  unfold ascending_then_descending.
  intros x y z [?|[??]] [?|[??]]; try (left; lia).
  right. lia.
Qed.

(** ** Ingestion *)

(** C1: when the file [olympics.db] exists, [create_db_from_csv] returns at
    once, without raising, and leaves the working directory as it was; the
    three tables of the database are therefore unchanged, whatever they hold
    and whether or not the CSV files can be read. *)
Theorem create_db_from_csv_existing (fs : Files) (db : Database) :
  olympics_db fs = Some db →
  create_db_from_csv fs = (fs, Returned ())
  ∧ olympics_db (create_db_from_csv fs).1 = Some db
  ∧ host_country <$> olympics_db (create_db_from_csv fs).1
    = Some (host_country db)
  ∧ summer_olympics_host <$> olympics_db (create_db_from_csv fs).1
    = Some (summer_olympics_host db)
  ∧ athletes <$> olympics_db (create_db_from_csv fs).1 = Some (athletes db).
Proof.
  intros Hdb.
  assert (create_db_from_csv fs = (fs, Returned ())) as Hrun.
  { unfold create_db_from_csv, mbind, IO_bind, os_path_exists_olympics_db.
    rewrite Hdb. by rewrite bool_decide_eq_true_2. }
  rewrite Hrun; simpl. by rewrite Hdb.
Qed.

Lemma create_db_from_csv_existing_witness :
  olympics_db sample_files = Some sample_db
  ∧ create_db_from_csv sample_files = (sample_files, Returned ()).
Proof.
  split; [reflexivity|].
  apply (create_db_from_csv_existing sample_files sample_db). reflexivity.
Defined.

(** ** Text and [LIKE] *)

Lemma app_nil_l (s : string) : EmptyString +:+ s = s.
Proof. reflexivity. Qed.

Lemma app_cons (c : ascii) (s1 s2 : string) :
  String c s1 +:+ s2 = String c (s1 +:+ s2).
Proof. reflexivity. Qed.


Lemma lower_app (s1 s2 : string) : lower (s1 +:+ s2) = lower s1 +:+ lower s2.
Proof.
  induction s1 as [|c s1 IH]; [done|].
  rewrite app_cons. simpl. by rewrite IH, app_cons.
Qed.






(** [%] at the head of a pattern skips any prefix of the text. *)
Lemma like_percent_unfold (p s : string) :
  like (String "%" p) s
  = like p s
    || match s with
       | EmptyString => false
       | String _ s' => like (String "%" p) s'
       end.
Proof. by destruct s. Qed.

Lemma like_percent (p s : string) :
  like (String "%" p) s = true ↔
  ∃ pre suf, s = pre +:+ suf ∧ like p suf = true.
Proof.
  induction s as [|d s IH]; rewrite like_percent_unfold.
  - rewrite orb_false_r. split.
    + intros H. by exists EmptyString, EmptyString.
    + intros (pre & suf & Hs & H). by destruct pre, suf.
  - rewrite orb_true_iff, IH. split.
    + intros [H|(pre & suf & -> & H)].
      * by exists EmptyString, (String d s).
      * by exists (String d pre), suf.
    + intros (pre & suf & Hs & H). destruct pre as [|c pre].
      * rewrite app_nil_l in Hs. subst suf. by left.
      * rewrite app_cons in Hs. injection Hs as -> ->. right. eauto.
Qed.

Lemma like_percent_any (s : string) : like "%" s = true.
Proof. apply like_percent. exists s, EmptyString. split; [|done].
  induction s as [|c s IH]; [done|]. by rewrite app_cons, <-IH.
Qed.






(** ** /api/all-medal-winners *)

Lemma entire_data_dump_binds country_name :
  forallb binds (Query.parameters (entire_data_dump_query country_name))
  = true.
Proof. by destruct country_name. Qed.

Lemma entire_data_dump_selected country_name a :
  Query.selected (entire_data_dump_query country_name) a
  = (Athletes.Medals a >? 0)
    && match country_name with
       | Some name => ilike (Athletes.Country a) ("%" +:+ name +:+ "%")
       | None => true
       end.
Proof.
  destruct country_name; unfold Query.selected; simpl;
    by rewrite ?andb_true_r.
Qed.

(** C2: whatever the table holds and whatever the filter, every row that
    [entire_data_dump] returns has more than zero medals, and the rows come
    by year ascending, rows of one year by country ascending. *)
Theorem entire_data_dump_medals_sorted
    (db : Database) (table : list Athletes.t) (country_name : option string) :
  athletes db = Some table →
  ∃ rows : list winner.row,
    Query.all db (entire_data_dump_query country_name) = Returned rows
    ∧ entire_data_dump db country_name
      = ok (jsonify (JList (athlete_dict <$> rows)))
    ∧ Forall (λ r, winner.medals r > 0) rows
    ∧ StronglySorted (ascending_then_text winner.year winner.country) rows.
Proof.
  intros Ht. exists (Query.result (entire_data_dump_query country_name) table).
  pose proof (all_athletes_table db table
                (entire_data_dump_query country_name) Ht
                (entire_data_dump_binds country_name)) as Hall.
  split; [done|]. split; [|split].
  - unfold entire_data_dump. by rewrite Hall.
  - apply Forall_forall. intros r Hr.
    apply elem_of_result in Hr as (a & _ & Hsel & ->).
    rewrite entire_data_dump_selected in Hsel.
    apply andb_true_iff in Hsel as [Hm _].
    apply Z.gtb_lt in Hm.
    destruct country_name; simpl; lia.
  - apply Sorted_StronglySorted; [apply _|].
    apply result_Sorted; [by destruct country_name|].
    intros a b Hab.
    assert (row_le [asc (IntegerColumn Athletes.Year);
                    asc (StringColumn Athletes.Country)] a b) as Hab'
      by (by destruct country_name).
    apply row_le_Year_Country in Hab'.
    by destruct country_name.
Qed.

Lemma entire_data_dump_medals_sorted_witness :
  athletes sample_db = Some sample_athletes
  ∧ ∃ rows : list winner.row,
      Query.all sample_db (entire_data_dump_query (Some "a")) = Returned rows
      ∧ entire_data_dump sample_db (Some "a")
        = ok (jsonify (JList (athlete_dict <$> rows)))
      ∧ Forall (λ r, winner.medals r > 0) rows
      ∧ StronglySorted (ascending_then_text winner.year winner.country) rows.
Proof.
  split; [reflexivity|].
  apply (entire_data_dump_medals_sorted sample_db sample_athletes (Some "a")).
  reflexivity.
Defined.

(** C4: every record that [entire_data_dump] returns under a filter is
    among the records it returns without one. *)
Theorem entire_data_dump_filter_subset (db : Database) (f : string) :
  records (entire_data_dump db (Some f)) ⊆ records (entire_data_dump db None).
Proof.
  unfold entire_data_dump.
  destruct (athletes db) as [table|] eqn:Ht;
    [|unfold Query.all; rewrite Ht; done].
  rewrite !(records_view db table)
    by (done || apply entire_data_dump_binds).
  intros d Hd.
  apply list_elem_of_fmap in Hd as (r & -> & Hr).
  apply list_elem_of_fmap. exists r. split; [done|].
  apply elem_of_result in Hr as (a & Ha & Hsel & ->).
  apply elem_of_result. exists a. split; [done|]. split; [|done].
  rewrite entire_data_dump_selected in *.
  apply andb_true_iff in Hsel as [-> _]. done.
Qed.

(** C10, as the code has it: on a table that is there and in which every
    row with medals has a country, the empty string as filter gives
    [entire_data_dump] the pattern [%%], which every text matches, and the
    response is the response without a filter, records and order alike. *)
Theorem entire_data_dump_empty_filter
    (db : Database) (table : list Athletes.t) :
  athletes db = Some table →
  (∀ a, a ∈ table → 0 < Athletes.Medals a → Athletes.Country a ≠ None) →
  entire_data_dump db (Some EmptyString) = entire_data_dump db None.
Proof.
  intros Ht Hnamed.
  assert (∀ s, like "%%" s = true) as Hany2.
  { intros s. apply like_percent. exists EmptyString, s. split; [done|].
    apply like_percent_any. }
  unfold entire_data_dump.
  rewrite !(all_athletes_table db table)
    by (done || apply entire_data_dump_binds).
  assert (Query.result (entire_data_dump_query (Some EmptyString)) table
          = Query.result (entire_data_dump_query None) table) as ->; [|done].
  unfold Query.result, Query.rows; simpl. do 2 f_equal.
  apply filter_ext_in. intros a Ha. apply list_elem_of_In in Ha.
  rewrite !entire_data_dump_selected.
  destruct (Athletes.Medals a >? 0) eqn:Hm; [|done]. simpl.
  apply Z.gtb_lt in Hm.
  destruct (Athletes.Country a) as [text|] eqn:Hc.
  - simpl. apply Hany2.
  - by destruct (Hnamed a Ha Hm).
Qed.

Lemma entire_data_dump_empty_filter_witness :
  athletes sample_db = Some sample_athletes
  ∧ entire_data_dump sample_db (Some EmptyString)
    = entire_data_dump sample_db None.
Proof.
  split; [reflexivity|].
  apply (entire_data_dump_empty_filter sample_db sample_athletes eq_refl).
  intros a Ha _. apply list_elem_of_In in Ha. simpl in Ha.
  repeat (destruct Ha as [<-|Ha]; [discriminate|]). destruct Ha.
Defined.

(** C10, as it is written, fails on a row without country: the row has
    medals and is returned without a filter, and the empty filter drops it,
    since NULL matches no pattern. *)
Lemma entire_data_dump_null_counterexample :
  athletes unnamed_db = Some [unnamed]
  ∧ records (entire_data_dump unnamed_db None)
    = [athlete_dict (winner.columns unnamed)]
  ∧ records (entire_data_dump unnamed_db (Some EmptyString)) = [].
Proof. by vm_compute. Qed.

(** ** The country filter *)

Lemma country_medals_selected selected_country a :
  Query.selected (country_medals_query selected_country) a
  = ilike (Athletes.Country a) ("%" +:+ selected_country +:+ "%").
Proof. unfold Query.selected; simpl. by rewrite andb_true_r. Qed.




(** ** /api/medals-tally/<int:selected_year> *)

Lemma total_medal_tally_selected selected_year a :
  Query.selected (total_medal_tally_query selected_year) a
  = (Athletes.Year a =? selected_year).
Proof. unfold Query.selected; simpl. by rewrite andb_true_r. Qed.

Lemma total_medal_tally_binds selected_year :
  forallb binds (Query.parameters (total_medal_tally_query selected_year))
  = in_int64 selected_year.
Proof. simpl. by rewrite andb_true_r. Qed.

(** C5, as the code has it: for every year that fits 64 bits,
    [total_medal_tally] returns the rows of that year and no others, each
    as often as the table holds it, by medals descending; when the table
    has no row of the year, the answer is the empty list with status 200,
    not an error. *)
Theorem total_medal_tally_rows
    (db : Database) (table : list Athletes.t) (selected_year : Z) :
  athletes db = Some table →
  in_int64 selected_year = true →
  ∃ rows : list tally.row,
    total_medal_tally db selected_year
    = ok (jsonify (JList (country_dict <$> rows)))
    ∧ rows ≡ₚ tally.columns
              <$> List.filter (λ a, Athletes.Year a =? selected_year) table
    ∧ Forall (λ r, tally.year r = selected_year) rows
    ∧ StronglySorted (descending tally.medals) rows
    ∧ ((∀ a, a ∈ table → Athletes.Year a ≠ selected_year) →
       rows = []
       ∧ total_medal_tally db selected_year = ok (jsonify (JList [])))
    ∧ status_code (total_medal_tally db selected_year) = 200.
Proof.
  intros Ht Hy.
  set (q := total_medal_tally_query selected_year).
  assert (total_medal_tally db selected_year
          = ok (jsonify (JList (country_dict <$> Query.result q table))))
    as Hview.
  { unfold total_medal_tally. rewrite (all_athletes_table db table); [done..|].
    by rewrite total_medal_tally_binds. }
  pose proof (total_medal_tally_selected selected_year) as Hsel.
  assert (Forall (λ r, tally.year r = selected_year) (Query.result q table))
    as Hyear.
  { apply Forall_forall. intros r Hr.
    apply elem_of_result in Hr as (a & _ & Ha & ->).
    unfold q in Ha. rewrite Hsel in Ha. apply Z.eqb_eq in Ha. done. }
  exists (Query.result q table).
  split; [done|]. split; [|split; [done|split; [|split]]].
  - rewrite (result_Permutation q table eq_refl). unfold q.
    by rewrite (List_filter_ext_eq _ _ table Hsel).
  - apply Sorted_StronglySorted; [apply _|].
    apply result_Sorted; [done|].
    intros a b Hab. by apply row_le_Medals_desc in Hab.
  - intros Hnone.
    assert (Query.result q table = []) as Hnil.
    { destruct (Query.result q table) as [|r rows] eqn:E; [done|].
      assert (r ∈ Query.result q table) as Hr by (rewrite E; left).
      apply elem_of_result in Hr as (a & Ha & Hs & _).
      unfold q in Hs. rewrite Hsel in Hs. apply Z.eqb_eq in Hs.
      by destruct (Hnone a Ha). }
    split; [done|]. by rewrite Hview, Hnil.
  - by rewrite Hview.
Qed.

Lemma total_medal_tally_rows_witness :
  (athletes sample_db = Some sample_athletes ∧ in_int64 2000 = true
   ∧ ∃ rows : list tally.row,
       total_medal_tally sample_db 2000
       = ok (jsonify (JList (country_dict <$> rows)))
       ∧ rows ≡ₚ tally.columns
                 <$> List.filter (λ a, Athletes.Year a =? 2000)
                                 sample_athletes
       ∧ Forall (λ r, tally.year r = 2000) rows
       ∧ StronglySorted (descending tally.medals) rows
       ∧ ((∀ a, a ∈ sample_athletes → Athletes.Year a ≠ 2000) →
          rows = []
          ∧ total_medal_tally sample_db 2000 = ok (jsonify (JList [])))
       ∧ status_code (total_medal_tally sample_db 2000) = 200)
  ∧ (in_int64 2004 = true
     ∧ (∀ a, a ∈ sample_athletes → Athletes.Year a ≠ 2004)
     ∧ total_medal_tally sample_db 2004 = ok (jsonify (JList []))).
Proof.
  split.
  - split; [reflexivity|]. split; [reflexivity|].
    apply (total_medal_tally_rows sample_db sample_athletes 2000);
      reflexivity.
  - assert (∀ a, a ∈ sample_athletes → Athletes.Year a ≠ 2004) as Hnone.
    { intros a Ha. apply list_elem_of_In in Ha. simpl in Ha.
      repeat (destruct Ha as [<-|Ha]; [discriminate|]). destruct Ha. }
    split; [reflexivity|]. split; [exact Hnone|].
    destruct (total_medal_tally_rows sample_db sample_athletes 2004
                eq_refl eq_refl) as (rows & _ & _ & _ & _ & Hempty & _).
    exact (proj2 (Hempty Hnone)).
Defined.

(** C5, as it is written, fails on a year beyond 64 bits, which the rule of
    the view accepts: no row of the table has that year, and the answer is
    an error with status 500, not the empty list. *)
Lemma total_medal_tally_overflow_counterexample :
  match_request ["api"; "medals-tally"; "9223372036854775808"]
  = Some (endpoint.total_medal_tally, [IntArg 9223372036854775808])
  ∧ athletes sample_db = Some sample_athletes
  ∧ Forall (λ a, Athletes.Year a ≠ 9223372036854775808) sample_athletes
  ∧ error_answer (total_medal_tally sample_db 9223372036854775808)
  ∧ ∀ templates,
      status_code
        (full_dispatch_request templates sample_db
           ["api"; "medals-tally"; "9223372036854775808"]) = 500.
Proof.
  split; [reflexivity|]. split; [reflexivity|].
  split; [by repeat constructor|]. split; [by split; [|eexists]|].
  intros templates. reflexivity.
Qed.

(** ** /api/host-countries *)

(** C6: every row that [host_countries] returns has the host flag 1, and
    the rows come by year ascending. *)
Theorem host_countries_rows (db : Database) (table : list Athletes.t) :
  athletes db = Some table →
  ∃ rows : list host.row,
    Query.all db host_countries_query = Returned rows
    ∧ host_countries db = ok (jsonify (JList (host_dict <$> rows)))
    ∧ Forall (λ r, host.host r = 1) rows
    ∧ StronglySorted (ascending host.year) rows.
Proof.
  intros Ht. exists (Query.result host_countries_query table).
  pose proof (all_athletes_table db table host_countries_query Ht eq_refl)
    as Hall.
  split; [done|]. split; [|split].
  - unfold host_countries. by rewrite Hall.
  - apply Forall_forall. intros r Hr.
    apply elem_of_result in Hr as (a & _ & Hsel & ->).
    unfold Query.selected in Hsel; simpl in Hsel.
    rewrite andb_true_r in Hsel. by apply Z.eqb_eq in Hsel.
  - apply Sorted_StronglySorted; [apply _|].
    apply result_Sorted; [done|].
    intros a b Hab. by apply row_le_Year in Hab.
Qed.

Lemma host_countries_rows_witness :
  athletes sample_db = Some sample_athletes
  ∧ ∃ rows : list host.row,
      Query.all sample_db host_countries_query = Returned rows
      ∧ host_countries sample_db = ok (jsonify (JList (host_dict <$> rows)))
      ∧ Forall (λ r, host.host r = 1) rows
      ∧ StronglySorted (ascending host.year) rows.
Proof.
  split; [reflexivity|].
  apply (host_countries_rows sample_db sample_athletes). reflexivity.
Defined.

(** ** /api/medals-tally/years_after_1960 *)

Lemma nation_dict_keys (r : tally.row) :
  ∃ d : gmap string json,
    nation_dict r = JDict d
    ∧ dom d = {[ "Year"; "Nation"; "Gold"; "Silver"; "Bronze"; "Medals" ]}
    ∧ d !! "Year" = Some (JInt (tally.year r))
    ∧ d !! "Nation" = Some (json_text (tally.country r))
    ∧ d !! "Medals" = Some (JInt (tally.medals r))
    ∧ d !! "Country" = None.
Proof.
  destruct r as [[[[[year country] gold] silver] bronze] medals].
  eexists. split; [reflexivity|].
  split; [|by vm_compute].
  unfold dict; simpl. rewrite !dom_insert_L, dom_empty_L. set_solver.
Qed.

Lemma nation_dict_not_country_dict (r r' : tally.row) :
  nation_dict r ≠ country_dict r'.
Proof.
  destruct r as [[[[[year country] gold] silver] bronze] medals].
  destruct r' as [[[[[year' country'] gold'] silver'] bronze'] medals'].
  intros Heq.
  apply (f_equal (λ j, match j with JDict d => d !! "Year" | _ => None end))
    in Heq.
  by vm_compute in Heq.
Qed.

(** C7, as the code has it: [total_medal_tally_year_after_1960] returns the
    rows with a year of 1960 or later and no others, by year ascending, rows
    of one year by medals descending; each record has exactly the keys
    Year, Nation, Gold, Silver, Bronze and Medals, the country under
    [Nation] ([null] for a row without country), and is the record of no
    row under the lower-case keys of the other medal views. *)
Theorem total_medal_tally_year_after_1960_rows
    (db : Database) (table : list Athletes.t) :
  athletes db = Some table →
  ∃ rows : list tally.row,
    total_medal_tally_year_after_1960 db
    = ok (jsonify (JList (nation_dict <$> rows)))
    ∧ rows ≡ₚ tally.columns
              <$> List.filter (λ a, Athletes.Year a >=? 1960) table
    ∧ Forall (λ r, 1960 ≤ tally.year r) rows
    ∧ StronglySorted (ascending_then_descending tally.year tally.medals) rows
    ∧ Forall (λ r,
        (∃ d : gmap string json,
           nation_dict r = JDict d
           ∧ dom d = {[ "Year"; "Nation"; "Gold"; "Silver"; "Bronze";
                        "Medals" ]}
           ∧ d !! "Year" = Some (JInt (tally.year r))
           ∧ d !! "Nation" = Some (json_text (tally.country r))
           ∧ d !! "Medals" = Some (JInt (tally.medals r)))
        ∧ ∀ r' : tally.row, nation_dict r ≠ country_dict r') rows.
Proof.
  intros Ht.
  set (q := total_medal_tally_year_after_1960_query).
  assert (∀ a, Query.selected q a = (Athletes.Year a >=? 1960)) as Hsel.
  { intros a. unfold Query.selected; simpl. by rewrite andb_true_r. }
  exists (Query.result q table).
  split; [|split; [|split; [|split]]].
  - unfold total_medal_tally_year_after_1960.
    by rewrite (all_athletes_table db table).
  - rewrite (result_Permutation q table eq_refl).
    by rewrite (List_filter_ext_eq _ _ table Hsel).
  - apply Forall_forall. intros r Hr.
    apply elem_of_result in Hr as (a & _ & Ha & ->).
    rewrite Hsel in Ha. apply Z.geb_le in Ha. simpl. lia.
  - apply Sorted_StronglySorted; [apply _|].
    apply result_Sorted; [done|].
    intros a b Hab. by apply row_le_Year_Medals_desc in Hab.
  - apply Forall_forall. intros r _. split.
    + destruct (nation_dict_keys r) as (d & ? & ? & ? & ? & ? & _). eauto 10.
    + apply nation_dict_not_country_dict.
Qed.

Lemma total_medal_tally_year_after_1960_rows_witness :
  athletes sample_db = Some sample_athletes
  ∧ ∃ rows : list tally.row,
      total_medal_tally_year_after_1960 sample_db
      = ok (jsonify (JList (nation_dict <$> rows)))
      ∧ rows ≡ₚ tally.columns
                <$> List.filter (λ a, Athletes.Year a >=? 1960) sample_athletes
      ∧ Forall (λ r, 1960 ≤ tally.year r) rows
      ∧ StronglySorted
          (ascending_then_descending tally.year tally.medals) rows
      ∧ Forall (λ r,
          (∃ d : gmap string json,
             nation_dict r = JDict d
             ∧ dom d = {[ "Year"; "Nation"; "Gold"; "Silver"; "Bronze";
                          "Medals" ]}
             ∧ d !! "Year" = Some (JInt (tally.year r))
             ∧ d !! "Nation" = Some (json_text (tally.country r))
             ∧ d !! "Medals" = Some (JInt (tally.medals r)))
          ∧ ∀ r' : tally.row, nation_dict r ≠ country_dict r') rows.
Proof.
  split; [reflexivity|].
  apply (total_medal_tally_year_after_1960_rows sample_db sample_athletes).
  reflexivity.
Defined.

(** C7, as it is written, fails on the name of a key: the record of France
    has no key [Country]; the country is under [Nation]. *)
Lemma years_after_1960_keys_counterexample :
  ∃ d : gmap string json,
    total_medal_tally_year_after_1960 france_db = ok (jsonify (JList [JDict d]))
    ∧ d !! "Country" = None
    ∧ d !! "Nation" = Some (JStr "France").
Proof. eexists. split; [reflexivity|]. by vm_compute. Qed.

(** ** /api/years after the first run *)









(** ** The rule of /api/medals-tally/<int:selected_year> *)

Lemma match_rules_Some rules path e args :
  match_rules rules path = Some (e, args) →
  ∃ rule, (rule, e) ∈ rules ∧ match_rule rule path = Some args.
Proof.
  induction rules as [|[rule e'] rules IH]; simpl; [done|].
  destruct (match_rule rule path) as [args'|] eqn:E.
  - intros [= -> ->]. exists rule. split; [left|done].
  - intros H. destruct (IH H) as (rule' & ? & ?).
    exists rule'. split; [by right|done].
Qed.





(** ** Scenarios on the sample data *)

Example like_substring : like "%ran%" "france" = true.
Proof. reflexivity. Qed.

Example like_one_character : like "f_ance" "france" = true.
Proof. reflexivity. Qed.

Example like_anchored : like "ran%" "france" = false.
Proof. reflexivity. Qed.

Example ilike_folds_case : ilike (Some "France") "%FRA%" = true.
Proof. reflexivity. Qed.

Example ilike_null : ilike None "%%" = false.
Proof. reflexivity. Qed.

(** The filter [fra] keeps France and drops Germany. *)
Example entire_data_dump_fra :
  Query.all sample_db (entire_data_dump_query (Some "fra"))
  = Returned [(2000, Some "France", 336, 31, 200, 13, 14, 11, 38)].
Proof. reflexivity. Qed.

(** Fiji, without medals, is not among the medal winners. *)
Example entire_data_dump_all :
  Query.all sample_db (entire_data_dump_query None)
  = Returned [(1956, Some "Australia", 294, 18, 140, 13, 8, 14, 35);
              (1996, Some "Germany", 465, 30, 234, 20, 18, 27, 65);
              (2000, Some "Australia", 617, 34, 270, 16, 25, 17, 58);
              (2000, Some "France", 336, 31, 200, 13, 14, 11, 38)].
Proof. reflexivity. Qed.

Example total_medal_tally_2000 :
  Query.all sample_db (total_medal_tally_query 2000)
  = Returned [(2000, Some "Australia", 16, 25, 17, 58);
              (2000, Some "France", 13, 14, 11, 38)].
Proof. reflexivity. Qed.

(** The host of 2000 is returned with its 58 medals. *)
Example host_countries_sample :
  Query.all sample_db host_countries_query
  = Returned [(1956, Some "Australia", 1, 13, 8, 14, 35);
              (2000, Some "Australia", 1, 16, 25, 17, 58)].
Proof. reflexivity. Qed.

Example get_years_sample :
  get_years sample_db = ok (jsonify (JList [JInt 1956; JInt 1996; JInt 2000])).
Proof. reflexivity. Qed.

(** A row without country is listed as [null], before the names. *)
Example get_countries_null :
  get_countries unnamed_db = ok (jsonify (JList [JNull])).
Proof. reflexivity. Qed.

(** A read that fails leaves the database file behind, without tables. *)
Example create_db_from_csv_missing_csv :
  create_db_from_csv
    {| olympics_db := None;
       host_country_csv := Some [];
       Summer_Olympics_Host_csv := None;
       summer_athlete_medals_count_csv := Some sample_athletes |}
  = ({| olympics_db := Some empty_database;
        host_country_csv := Some [];
        Summer_Olympics_Host_csv := None;
        summer_athlete_medals_count_csv := Some sample_athletes |},
     Raised "No such file or directory: data/Summer_Olympics_Host.csv").
Proof. reflexivity. Qed.

Example match_request_year :
  match_request ["api"; "medals-tally"; "2004"]
  = Some (endpoint.total_medal_tally, [IntArg 2004]).
Proof. reflexivity. Qed.

Example match_request_negative_year :
  match_request ["api"; "medals-tally"; "-2004"] = None.
Proof. reflexivity. Qed.

(** The path of the tally since 1960 has a rule of its own. *)
Example match_request_years_after_1960 :
  match_request ["api"; "medals-tally"; "years_after_1960"]
  = Some (endpoint.total_medal_tally_year_after_1960, []).
Proof. reflexivity. Qed.

(** A path without rule gets the page of the 404 handler. *)
Example unknown_path :
  full_dispatch_request (λ _, None) sample_db ["nowhere"]
  = with_status (Html "404.html") 404.
Proof. reflexivity. Qed.

(** A template that fails: the page view answers with the error itself. *)
Example home_template_missing :
  full_dispatch_request (λ _, Some "index1.html") sample_db ["index.html"]
  = error_response "index1.html".
Proof. reflexivity. Qed.

Example missing_table_is_an_error :
  error_answer (total_medal_tally empty_database 2004).
Proof. split; [reflexivity|]. by eexists. Qed.

(** * Further properties *)

(** ** The first run and the runs after it *)

(** Whatever a run does, it leaves a database file and the CSV files it
    found. *)
Lemma create_db_from_csv_files (fs : Files) :
  ∃ db,
    (create_db_from_csv fs).1
    = directory (Some db) (host_country_csv fs) (Summer_Olympics_Host_csv fs)
                (summer_athlete_medals_count_csv fs).
Proof.
  destruct fs as [[db|] [hc|] [soh|] [ath|]];
    try (eexists; reflexivity).
  unfold create_db_from_csv, mbind, IO_bind, to_sql,
    os_path_exists_olympics_db, sqlite3_connect, read_csv, sqlite3_close,
    mret, IO_ret.
  cbn -[replace_host_country replace_summer_olympics_host replace_athletes].
  destruct (replace_host_country hc empty_database) as [db1|db1];
    cbn -[replace_host_country replace_summer_olympics_host replace_athletes];
    [|eexists; reflexivity].
  destruct (replace_summer_olympics_host soh db1) as [db2|db2];
    cbn -[replace_host_country replace_summer_olympics_host replace_athletes];
    [|eexists; reflexivity].
  destruct (replace_athletes ath db2) as [db3|db3];
    eexists; reflexivity.
Qed.



(** X3: no run of [create_db_from_csv] changes a CSV file. *)
Theorem create_db_from_csv_keeps_csv (fs : Files) :
  host_country_csv (create_db_from_csv fs).1 = host_country_csv fs
  ∧ Summer_Olympics_Host_csv (create_db_from_csv fs).1
    = Summer_Olympics_Host_csv fs
  ∧ summer_athlete_medals_count_csv (create_db_from_csv fs).1
    = summer_athlete_medals_count_csv fs.
Proof.
  destruct (create_db_from_csv_files fs) as [db Hdb]. by rewrite Hdb.
Qed.

(** ** Rules and the arguments they hand over *)

Lemma match_rule_nil path args :
  match_rule [] path = Some args → path = [] ∧ args = [].
Proof. destruct path; simpl; [by intros [= <-]|done]. Qed.

Lemma match_rule_static s rule path args :
  match_rule (static s :: rule) path = Some args →
  ∃ path', path = s :: path' ∧ match_rule rule path' = Some args.
Proof.
  destruct path as [|segment path']; simpl; [done|].
  destruct (decide (s = segment)) as [<-|]; [|done]. eauto.
Qed.

Lemma match_rule_int rule path args :
  match_rule (int_converter :: rule) path = Some args →
  ∃ segment path' n args',
    path = segment :: path' ∧ IntegerConverter segment = Some n
    ∧ match_rule rule path' = Some args' ∧ args = IntArg n :: args'.
Proof.
  destruct path as [|segment path']; simpl; [done|].
  destruct (IntegerConverter segment) as [n|] eqn:Hn; simpl; [|done].
  destruct (match_rule rule path') as [args'|] eqn:Hr; simpl; [|done].
  intros [= <-]. by exists segment, path', n, args'.
Qed.

Lemma match_rule_default rule path args :
  match_rule (default_converter :: rule) path = Some args →
  ∃ segment path' args',
    path = segment :: path' ∧ segment ≠ EmptyString
    ∧ match_rule rule path' = Some args' ∧ args = StrArg segment :: args'.
Proof.
  destruct path as [|segment path']; simpl; [done|].
  destruct segment as [|c segment]; simpl; [done|].
  destruct (match_rule rule path') as [args'|] eqn:Hr; simpl; [|done].
  intros [= <-]. by exists (String c segment), path', args'.
Qed.

Lemma int_of_digits_nonneg acc s n :
  0 ≤ acc → int_of_digits acc s = Some n → acc ≤ n.
Proof.
  revert acc. induction s as [|c s IH]; intros acc Hacc; simpl.
  - intros [= <-]. lia.
  - destruct (is_digit c) eqn:Hc; [|done]. intros Hn.
    assert (0 ≤ digit_value c) as Hd.
    { unfold is_digit in Hc. apply andb_true_iff in Hc as [Hc _].
      apply N.leb_le in Hc. unfold digit_value. lia. }
    apply IH in Hn; lia.
Qed.

Lemma IntegerConverter_nonneg segment n :
  IntegerConverter segment = Some n → 0 ≤ n.
Proof.
  unfold IntegerConverter. destruct segment as [|c segment]; [done|].
  apply int_of_digits_nonneg. lia.
Qed.

Ltac invert_rule H :=
  repeat first
    [ apply match_rule_nil in H as [-> ->]
    | apply match_rule_static in H as (? & -> & H)
    | apply match_rule_int in H as (? & ? & ? & ? & -> & ? & H & ->)
    | apply match_rule_default in H as (? & ? & ? & -> & ? & H & ->) ].

(** Rule by rule: the arguments of a match are those of the view.  The
    lemma the later proofs share. *)
Lemma url_map_view_accepts path e args :
  match_request path = Some (e, args) → view_accepts e args.
Proof.
  intros Hm. apply match_rules_Some in Hm as (rule & Hrule & Hm).
  unfold url_map in Hrule. rewrite !elem_of_cons, elem_of_nil in Hrule.
  repeat (destruct Hrule as [Hrule|Hrule];
          [injection Hrule as -> ->; invert_rule Hm; simpl;
           eauto using IntegerConverter_nonneg|]).
  done.
Qed.

(** X4: whatever rule matches a path, the arguments it hands over are the
    ones its view takes: nothing for the views without parameter, a country
    name that is not empty for [entire_data_dump] and [country_medals], and
    an integer that is not negative for [total_medal_tally]. *)
Theorem match_request_view_accepts
    (path : list string) (e : endpoint.t) (args : list argument) :
  match_request path = Some (e, args) → view_accepts e args.
Proof.
  intros Hm. apply match_rules_Some in Hm as (rule & Hrule & Hm).
  unfold url_map in Hrule. rewrite !elem_of_cons, elem_of_nil in Hrule.
  repeat (destruct Hrule as [Hrule|Hrule];
          [injection Hrule as -> ->; invert_rule Hm; simpl;
           eauto using IntegerConverter_nonneg|]).
  done.
Qed.

Lemma match_request_view_accepts_witness :
  match_request ["api"; "country"; "fra"]
  = Some (endpoint.country_medals, [StrArg "fra"])
  ∧ view_accepts endpoint.country_medals [StrArg "fra"].
Proof.
  split; [reflexivity|].
  apply (match_request_view_accepts ["api"; "country"; "fra"]). reflexivity.
Defined.

(** ** What a view that queries the database answers *)

Lemma view_answer {R} `{EqDecision R} db (q : Query.t R) (f : R → json) :
  (is_Some (athletes db) →
   forallb binds (Query.parameters q) = true →
   list_answer
     match Query.all db q with
     | Returned rows => ok (jsonify (JList (f <$> rows)))
     | Raised e => error_response e
     end)
  ∧ (athletes db = None ∨ forallb binds (Query.parameters q) = false →
     error_answer
       match Query.all db q with
       | Returned rows => ok (jsonify (JList (f <$> rows)))
       | Raised e => error_response e
       end).
Proof.
  unfold Query.all. split.
  - intros [table ->] ->. split; [done|]. by eexists.
  - intros [->| ->]; [|destruct (athletes db)]; (split; [done|]); by eexists.
Qed.

(** The arguments of a rule bind exactly when the parameters of the
    statement of its view do. *)
Lemma dispatch_request_binds templates db e args :
  view_accepts e args →
  queries_database e = true →
  ∃ (R : Type) (_ : EqDecision R) (q : Query.t R) (f : R → json),
    dispatch_request templates db e args
    = match Query.all db q with
      | Returned rows => ok (jsonify (JList (f <$> rows)))
      | Raised e => error_response e
      end
    ∧ forallb binds (Query.parameters q) = forallb binds args.
Proof.
  intros Hacc He.
  destruct e; try done; simpl in *;
    repeat match goal with
           | H : match ?a with _ => _ end |- _ => destruct a; try done
           end;
    eexists _, _, _, _; (split; [reflexivity|]); reflexivity.
Qed.

(** X5: a path that the rule of a database view matches is answered by
    that view in one of two ways.  When the table [athletes] exists and the
    integer of the path, if it has one, fits 64 bits, the answer is a JSON
    list with status 200.  When the table is missing, or the integer does
    not fit 64 bits, the answer is the dictionary with the one key [error]
    and status 500. *)
Theorem database_view_answer
    (templates : Templates) (db : Database) (path : list string)
    (e : endpoint.t) (args : list argument) :
  match_request path = Some (e, args) →
  queries_database e = true →
  (is_Some (athletes db) → forallb binds args = true →
   list_answer (full_dispatch_request templates db path))
  ∧ (athletes db = None ∨ forallb binds args = false →
     error_answer (full_dispatch_request templates db path)).
Proof.
  intros Hm He. unfold full_dispatch_request. rewrite Hm.
  apply url_map_view_accepts in Hm.
  destruct (dispatch_request_binds templates db e args Hm He)
    as (R & ? & q & f & -> & <-).
  apply view_answer.
Qed.

Lemma database_view_answer_witness :
  match_request ["api"; "medals-tally"; "9223372036854775808"]
  = Some (endpoint.total_medal_tally, [IntArg 9223372036854775808])
  ∧ forallb binds [IntArg 9223372036854775808] = false
  ∧ error_answer
      (full_dispatch_request (λ _, None) sample_db
         ["api"; "medals-tally"; "9223372036854775808"]).
Proof.
  split; [reflexivity|]. split; [reflexivity|].
  apply (database_view_answer (λ _, None) sample_db
           ["api"; "medals-tally"; "9223372036854775808"]
           endpoint.total_medal_tally [IntArg 9223372036854775808]
           eq_refl eq_refl).
  right. reflexivity.
Defined.

(** X6: no view reads the tables [host_country] and [summer_olympics_host]:
    two databases with the same table [athletes] answer every request
    alike. *)
Theorem full_dispatch_request_reads_athletes
    (templates : Templates) (db db' : Database) (path : list string) :
  athletes db = athletes db' →
  full_dispatch_request templates db path
  = full_dispatch_request templates db' path.
Proof.
  intros Ha. unfold full_dispatch_request.
  destruct (match_request path) as [[e args]|]; [|done].
  unfold dispatch_request, entire_data_dump, total_medal_tally, total_medals,
    host_countries, country_medals, total_medal_tally_year_after_1960,
    get_countries, get_years, Query.all.
  rewrite Ha. done.
Qed.

Lemma full_dispatch_request_reads_athletes_witness :
  athletes sample_db = athletes (athletes_db sample_athletes I)
  ∧ full_dispatch_request (λ _, None) sample_db ["api"; "host-countries"]
    = full_dispatch_request (λ _, None) (athletes_db sample_athletes I)
        ["api"; "host-countries"].
Proof.
  split; [reflexivity|].
  apply (full_dispatch_request_reads_athletes (λ _, None) sample_db
           (athletes_db sample_athletes I) ["api"; "host-countries"]).
  reflexivity.
Defined.



(** ** The other queries *)

(** X8: [total_medals] returns the rows with a year of 1980 or later and no
    others, each as often as the table holds it, by year ascending, rows of
    one year by medals descending. *)
Theorem total_medals_rows (db : Database) (table : list Athletes.t) :
  athletes db = Some table →
  ∃ rows : list (Z * option string * Z),
    total_medals db = ok (jsonify (JList (country_medals_dict <$> rows)))
    ∧ rows ≡ₚ (λ a, (Athletes.Year a, Athletes.Country a, Athletes.Medals a))
              <$> List.filter (λ a, Athletes.Year a >=? 1980) table
    ∧ Forall (λ r, 1980 ≤ r.1.1) rows
    ∧ StronglySorted
        (ascending_then_descending (λ r : Z * option string * Z, r.1.1)
                                   (λ r : Z * option string * Z, r.2)) rows.
Proof.
  intros Ht. set (q := total_medals_query).
  assert (∀ a, Query.selected q a = (Athletes.Year a >=? 1980)) as Hsel.
  { intros a. unfold Query.selected; simpl. by rewrite andb_true_r. }
  exists (Query.result q table). split; [|split; [|split]].
  - unfold total_medals. by rewrite (all_athletes_table db table).
  - rewrite (result_Permutation q table eq_refl).
    by rewrite (List_filter_ext_eq _ _ table Hsel).
  - apply Forall_forall. intros r Hr.
    apply elem_of_result in Hr as (a & _ & Ha & ->).
    rewrite Hsel in Ha. apply Z.geb_le in Ha. simpl. lia.
  - apply Sorted_StronglySorted; [apply _|].
    apply result_Sorted; [done|].
    intros a b Hab. by apply row_le_Year_Medals_desc in Hab.
Qed.

Lemma total_medals_rows_witness :
  athletes sample_db = Some sample_athletes
  ∧ ∃ rows : list (Z * option string * Z),
      total_medals sample_db
      = ok (jsonify (JList (country_medals_dict <$> rows)))
      ∧ rows ≡ₚ (λ a, (Athletes.Year a, Athletes.Country a,
                       Athletes.Medals a))
                <$> List.filter (λ a, Athletes.Year a >=? 1980)
                                sample_athletes
      ∧ Forall (λ r, 1980 ≤ r.1.1) rows
      ∧ StronglySorted
          (ascending_then_descending (λ r : Z * option string * Z, r.1.1)
                                     (λ r : Z * option string * Z, r.2)) rows.
Proof.
  split; [reflexivity|].
  apply (total_medals_rows sample_db sample_athletes). reflexivity.
Defined.



Lemma remove_dups_strict {A} `{EqDecision A} (R : relation A)
    `{!AntiSymm (=) R} (l : list A) :
  StronglySorted R l → StronglySorted (strict R) (remove_dups l).
Proof.
  induction 1 as [|x l Hl IH Hx]; simpl; [constructor|].
  destruct (decide_rel elem_of x l) as [|Hnot]; [done|].
  constructor; [done|].
  apply Forall_forall. intros y Hy. rewrite elem_of_remove_dups in Hy.
  rewrite Forall_forall in Hx. split; [by apply Hx|].
  intros Hyx. assert (x = y) as -> by (apply (anti_symm R); auto).
  contradiction.
Qed.

Lemma row_le_Country a b :
  row_le [asc (StringColumn Athletes.Country)] a b →
  text_le (Athletes.Country a) (Athletes.Country b).
Proof.
  unfold row_le; simpl. intros H. apply compare_text_le.
  by destruct (compare_text (Athletes.Country a) (Athletes.Country b)).
Qed.

(** X10: [get_countries] returns each country of the table once, in
    strictly increasing order of the names, character code by character
    code, and nothing else; the rows without country, if there are any,
    give one [null], before the names. *)
Theorem get_countries_rows (db : Database) (table : list Athletes.t) :
  athletes db = Some table →
  ∃ countries : list (option string),
    get_countries db = ok (jsonify (JList (json_text <$> countries)))
    ∧ NoDup countries
    ∧ StronglySorted (strict text_le) countries
    ∧ ∀ c, c ∈ countries ↔ ∃ a, a ∈ table ∧ Athletes.Country a = c.
Proof.
  intros Ht. exists (Query.result get_countries_query table).
  split; [|split; [|split]].
  - unfold get_countries. by rewrite (all_athletes_table db table).
  - apply NoDup_remove_dups.
  - apply remove_dups_strict; [apply _|].
    apply Sorted_StronglySorted; [apply _|].
    eapply Sorted_fmap; [|apply rows_Sorted].
    intros a b Hab. by apply row_le_Country in Hab.
  - intros c. rewrite elem_of_result. split.
    + intros (a & Ha & _ & ->). eauto.
    + intros (a & Ha & <-). by exists a.
Qed.

Lemma get_countries_rows_witness :
  athletes sample_db = Some sample_athletes
  ∧ ∃ countries : list (option string),
      get_countries sample_db
      = ok (jsonify (JList (json_text <$> countries)))
      ∧ NoDup countries
      ∧ StronglySorted (strict text_le) countries
      ∧ ∀ c, c ∈ countries ↔
             ∃ a, a ∈ sample_athletes ∧ Athletes.Country a = c.
Proof.
  split; [reflexivity|].
  apply (get_countries_rows sample_db sample_athletes). reflexivity.
Defined.

(** ** How the views agree with one another *)

(** X11: the years that [get_years] lists are the years for which
    [total_medal_tally] has a record to return. *)
Theorem get_years_total_medal_tally
    (db : Database) (table : list Athletes.t) (year : Z) :
  athletes db = Some table →
  JInt year ∈ records (get_years db) ↔
  records (total_medal_tally db year) ≠ [].
Proof.
  intros Ht. unfold get_years, total_medal_tally.
  rewrite (records_view db table get_years_query) by done.
  assert (JInt year ∈ JInt <$> Query.result get_years_query table ↔
          ∃ a, a ∈ table ∧ Athletes.Year a = year) as ->.
  { rewrite list_elem_of_fmap. split.
    - intros (y & [= ->] & Hy).
      apply elem_of_result in Hy as (a & ? & _ & ->). eauto.
    - intros (a & Ha & <-). eexists. split; [done|].
      apply elem_of_result. by exists a. }
  destruct (in_int64 year) eqn:Hfit.
  - rewrite (records_view db table (total_medal_tally_query year))
      by (done || by rewrite total_medal_tally_binds).
    split.
    + intros (a & Ha & Hy) Hnil.
      apply fmap_nil_inv in Hnil.
      assert (tally.columns a
                ∈ Query.result (total_medal_tally_query year) table) as Hin.
      { apply elem_of_result. exists a. rewrite total_medal_tally_selected.
        split; [done|]. split; [by apply Z.eqb_eq|done]. }
      rewrite Hnil in Hin. by apply elem_of_nil in Hin.
    + intros Hne.
      destruct (Query.result (total_medal_tally_query year) table)
        as [|r rows] eqn:E; [done|].
      assert (r ∈ Query.result (total_medal_tally_query year) table) as Hr
        by (rewrite E; left).
      apply elem_of_result in Hr as (a & Ha & Hs & _).
      rewrite total_medal_tally_selected in Hs. apply Z.eqb_eq in Hs. eauto.
  - unfold Query.all. rewrite Ht, total_medal_tally_binds, Hfit.
    unfold records; simpl. split; [|done].
    intros (a & Ha & <-).
    by rewrite (athletes_Year_int64 db table a Ht Ha) in Hfit.
Qed.

Lemma get_years_total_medal_tally_witness :
  athletes sample_db = Some sample_athletes
  ∧ (JInt 1996 ∈ records (get_years sample_db) ↔
     records (total_medal_tally sample_db 1996) ≠ []).
Proof.
  split; [reflexivity|].
  apply (get_years_total_medal_tally sample_db sample_athletes 1996).
  reflexivity.
Defined.

Lemma ilike_lower (c : option string) (f g : string) :
  lower f = lower g →
  ilike c ("%" +:+ f +:+ "%") = ilike c ("%" +:+ g +:+ "%").
Proof.
  intros Hfg. destruct c as [text|]; [|done]. unfold ilike.
  rewrite !lower_app. by rewrite Hfg.
Qed.

(** X12: on a database with the table [athletes], the country filter does
    not see the case of the letters A-Z: two filters that are the same once
    their letters A-Z are put in lower case get the same response, from
    [entire_data_dump] and from [country_medals]. *)
Theorem country_filter_ignores_case
    (db : Database) (table : list Athletes.t) (f g : string) :
  athletes db = Some table →
  lower f = lower g →
  entire_data_dump db (Some f) = entire_data_dump db (Some g)
  ∧ country_medals db f = country_medals db g.
Proof.
  intros Ht Hfg. unfold entire_data_dump, country_medals.
  rewrite !(all_athletes_table db table) by done.
  unfold Query.result, Query.rows; simpl. split.
  - rewrite (List_filter_ext_eq
               (Query.selected (entire_data_dump_query (Some f)))
               (Query.selected (entire_data_dump_query (Some g)))); [done|].
    intros a. rewrite !entire_data_dump_selected.
    by rewrite (ilike_lower _ f g Hfg).
  - rewrite (List_filter_ext_eq
               (Query.selected (country_medals_query f))
               (Query.selected (country_medals_query g))); [done|].
    intros a. rewrite !country_medals_selected. by apply ilike_lower.
Qed.

Lemma country_filter_ignores_case_witness :
  athletes sample_db = Some sample_athletes
  ∧ lower "FRa" = lower "fra"
  ∧ entire_data_dump sample_db (Some "FRa")
    = entire_data_dump sample_db (Some "fra")
  ∧ country_medals sample_db "FRa" = country_medals sample_db "fra".
Proof.
  split; [reflexivity|]. split; [reflexivity|].
  apply (country_filter_ignores_case sample_db sample_athletes "FRa" "fra");
    reflexivity.
Defined.

(** ** Records and rows *)

Lemma JDict_lookup (d d' : gmap string json) (k : string) :
  JDict d = JDict d' → d !! k = d' !! k.
Proof. by intros [= ->]. Qed.

Lemma json_text_inj (c c' : option string) :
  json_text c = json_text c' → c = c'.
Proof. destruct c, c'; simpl; congruence. Qed.

Ltac dict_fields Heq keys :=
  lazymatch keys with
  | [] => idtac
  | ?k :: ?keys' =>
      let H := fresh "Hk" in
      pose proof (JDict_lookup _ _ k Heq) as H;
      vm_compute in H; injection H as H;
      dict_fields Heq keys'
  end.

Lemma athlete_dict_inj r r' : athlete_dict r = athlete_dict r' → r = r'.
Proof.
  destruct r as [[[[[[[[y c] a] s] e] g] sv] b] m],
           r' as [[[[[[[[y' c'] a'] s'] e'] g'] sv'] b'] m'].
  unfold athlete_dict. intros Heq.
  assert (c = c') as ->.
  { apply json_text_inj.
    pose proof (JDict_lookup _ _ "country" Heq) as H.
    by injection H. }
  destruct c' as [c'|];
    dict_fields Heq ["year"; "athletes"; "sports"; "events";
                     "gold"; "silver"; "bronze"; "medals"];
    by subst.
Qed.

Lemma country_dict_inj r r' : country_dict r = country_dict r' → r = r'.
Proof.
  destruct r as [[[[[y c] g] sv] b] m], r' as [[[[[y' c'] g'] sv'] b'] m'].
  unfold country_dict. intros Heq.
  assert (c = c') as ->.
  { apply json_text_inj.
    pose proof (JDict_lookup _ _ "country" Heq) as H.
    by injection H. }
  destruct c' as [c'|];
    dict_fields Heq ["year"; "gold"; "silver"; "bronze"; "total_medals"];
    by subst.
Qed.

Lemma country_medals_dict_inj r r' :
  country_medals_dict r = country_medals_dict r' → r = r'.
Proof.
  destruct r as [[y c] m], r' as [[y' c'] m'].
  unfold country_medals_dict. intros Heq.
  assert (c = c') as ->.
  { apply json_text_inj.
    pose proof (JDict_lookup _ _ "country" Heq) as H.
    by injection H. }
  destruct c' as [c'|];
    dict_fields Heq ["year"; "total_medals"];
    by subst.
Qed.

Lemma nation_dict_inj r r' : nation_dict r = nation_dict r' → r = r'.
Proof.
  destruct r as [[[[[y c] g] sv] b] m], r' as [[[[[y' c'] g'] sv'] b'] m'].
  unfold nation_dict. intros Heq.
  assert (c = c') as ->.
  { apply json_text_inj.
    pose proof (JDict_lookup _ _ "Nation" Heq) as H.
    by injection H. }
  destruct c' as [c'|];
    dict_fields Heq ["Year"; "Gold"; "Silver"; "Bronze"; "Medals"];
    by subst.
Qed.

Lemma elem_of_fmap_inj {A B} (f : A → B) (l : list A) (x : A) :
  (∀ y z, f y = f z → y = z) → f x ∈ f <$> l ↔ x ∈ l.
Proof.
  intros Hinj. rewrite list_elem_of_fmap. split.
  - intros (y & Heq & Hy). by rewrite (Hinj _ _ Heq).
  - intros Hx. by exists x.
Qed.

(** X13: a record determines its row: the views [entire_data_dump],
    [total_medal_tally], [country_medals], [total_medals] and
    [total_medal_tally_year_after_1960] give different rows different
    records; no key of a dictionary overwrites another. *)
Theorem dicts_injective :
  (∀ r r', athlete_dict r = athlete_dict r' → r = r')
  ∧ (∀ r r', country_dict r = country_dict r' → r = r')
  ∧ (∀ r r', country_medals_dict r = country_medals_dict r' → r = r')
  ∧ (∀ r r', nation_dict r = nation_dict r' → r = r').
Proof.
  split; [|split; [|split]].
  - apply athlete_dict_inj.
  - apply country_dict_inj.
  - apply country_medals_dict_inj.
  - apply nation_dict_inj.
Qed.

Lemma country_medals_binds selected_country :
  forallb binds (Query.parameters (country_medals_query selected_country))
  = true.
Proof. reflexivity. Qed.

(** X14: [entire_data_dump] with a filter is [country_medals] with the
    same argument, cut down to the rows with medals: the record of a row of
    the table is in the first response exactly when the row has more than
    zero medals and its record is in the second.  This holds for every
    filter, wildcards or not. *)
Theorem entire_data_dump_country_medals
    (db : Database) (table : list Athletes.t) (f : string) (a : Athletes.t) :
  athletes db = Some table →
  a ∈ table →
  athlete_dict (winner.columns a) ∈ records (entire_data_dump db (Some f)) ↔
  0 < Athletes.Medals a
  ∧ country_dict (tally.columns a) ∈ records (country_medals db f).
Proof.
  intros Ht Ha. unfold entire_data_dump, country_medals.
  rewrite (records_view db table (entire_data_dump_query (Some f)))
    by (done || apply entire_data_dump_binds).
  rewrite (records_view db table (country_medals_query f))
    by (done || apply country_medals_binds).
  rewrite (elem_of_fmap_inj _ _ _ athlete_dict_inj),
          (elem_of_fmap_inj _ _ _ country_dict_inj), !elem_of_result.
  split.
  - intros (a' & _ & Hsel & Heq).
    rewrite entire_data_dump_selected in Hsel.
    apply andb_true_iff in Hsel as [Hm Hl]. apply Z.gtb_lt in Hm.
    injection Heq as _ Hc _ _ _ _ _ _ Hmedals.
    split; [lia|]. exists a. rewrite country_medals_selected.
    by rewrite Hc.
  - intros (Hm & a' & _ & Hsel & Heq).
    rewrite country_medals_selected in Hsel.
    injection Heq as _ Hc _ _ _ _.
    exists a. rewrite entire_data_dump_selected.
    split; [done|]. split; [|done].
    apply andb_true_iff. split; [apply Z.gtb_lt; lia|by rewrite Hc].
Qed.

Lemma entire_data_dump_country_medals_witness :
  athletes sample_db = Some sample_athletes
  ∧ france ∈ sample_athletes
  ∧ (athlete_dict (winner.columns france)
       ∈ records (entire_data_dump sample_db (Some "r_n")) ↔
     0 < Athletes.Medals france
     ∧ country_dict (tally.columns france)
         ∈ records (country_medals sample_db "r_n")).
Proof.
  assert (france ∈ sample_athletes) as Hin
    by (apply list_elem_of_In; simpl; auto).
  split; [reflexivity|]. split; [exact Hin|].
  exact (entire_data_dump_country_medals sample_db sample_athletes "r_n"
           france eq_refl Hin).
Defined.

(** ** Finding a country *)

Lemma app_nil_r (s : string) : s +:+ EmptyString = s.
Proof. induction s as [|c s IH]; [done|]. by rewrite app_cons, IH. Qed.

(** A pattern matches the text it spells, wildcards and all. *)
Lemma like_app_same (p q s : string) :
  like q s = true → like (p +:+ q) (p +:+ s) = true.
Proof.
  intros Hq. induction p as [|c p IH]; [done|].
  rewrite !app_cons. destruct (Ascii.eqb c "%") eqn:E.
  - apply Ascii.eqb_eq in E as ->. apply like_percent.
    by exists (String "%" EmptyString), (p +:+ s).
  - simpl. rewrite E, IH, Ascii.eqb_refl. by rewrite orb_true_r.
Qed.

Lemma ilike_self (c : string) : ilike (Some c) ("%" +:+ c +:+ "%") = true.
Proof.
  unfold ilike. rewrite !lower_app.
  change (lower "%") with "%". rewrite app_cons, app_nil_l.
  apply like_percent. exists EmptyString, (lower c). split; [done|].
  rewrite <-(app_nil_r (lower c)) at 2. apply like_app_same.
  apply like_percent_any.
Qed.

(** X15: every country that [get_countries] lists is found by
    [country_medals] under its own name, whatever characters the name has:
    the response holds the record of a row of that very country. *)
Theorem get_countries_country_medals
    (db : Database) (table : list Athletes.t) (c : string) :
  athletes db = Some table →
  JStr c ∈ records (get_countries db) →
  ∃ a, a ∈ table ∧ Athletes.Country a = Some c
       ∧ country_dict (tally.columns a) ∈ records (country_medals db c).
Proof.
  intros Ht. unfold get_countries, country_medals.
  rewrite (records_view db table get_countries_query) by done.
  rewrite (records_view db table (country_medals_query c))
    by (done || apply country_medals_binds).
  rewrite list_elem_of_fmap. intros (c' & Hc' & Hc).
  assert (c' = Some c) as -> by (destruct c'; simpl in Hc'; congruence).
  apply elem_of_result in Hc as (a & Ha & _ & Hcountry).
  simpl in Hcountry.
  exists a. split; [done|]. split; [done|].
  apply list_elem_of_fmap. eexists. split; [done|].
  apply elem_of_result. exists a. rewrite country_medals_selected.
  by rewrite <-Hcountry, ilike_self.
Qed.

Lemma get_countries_country_medals_witness :
  athletes sample_db = Some sample_athletes
  ∧ JStr "Fiji" ∈ records (get_countries sample_db)
  ∧ ∃ a, a ∈ sample_athletes ∧ Athletes.Country a = Some "Fiji"
         ∧ country_dict (tally.columns a)
             ∈ records (country_medals sample_db "Fiji").
Proof.
  assert (JStr "Fiji" ∈ records (get_countries sample_db)) as Hin
    by (apply list_elem_of_In; vm_compute; auto).
  split; [reflexivity|]. split; [exact Hin|].
  exact (get_countries_country_medals sample_db sample_athletes "Fiji"
           eq_refl Hin).
Defined.




(** ** Tallies against one another *)

(** X17: what [total_medals] returns is part of what
    [total_medal_tally_year_after_1960] returns: for every record of the
    first there is a record of the second with the same year, country and
    number of medals. *)
Theorem total_medals_within_years_after_1960
    (db : Database) (year : Z) (country : option string) (medals : Z) :
  country_medals_dict (year, country, medals) ∈ records (total_medals db) →
  ∃ gold silver bronze,
    nation_dict (year, country, gold, silver, bronze, medals)
      ∈ records (total_medal_tally_year_after_1960 db).
Proof.
  unfold total_medals, total_medal_tally_year_after_1960.
  destruct (athletes db) as [table|] eqn:Ht;
    [|unfold Query.all; rewrite Ht; by intros ?%elem_of_nil].
  rewrite !(records_view db table) by done.
  rewrite (elem_of_fmap_inj _ _ _ country_medals_dict_inj), elem_of_result.
  intros (a & Ha & Hsel & [= -> -> ->]).
  exists (Athletes.Gold a), (Athletes.Silver a), (Athletes.Bronze a).
  apply list_elem_of_fmap. exists (tally.columns a). split; [done|].
  apply elem_of_result. exists a. split; [done|]. split; [|done].
  unfold Query.selected in *; simpl in *. rewrite andb_true_r in *.
  apply Z.geb_le in Hsel. apply Z.geb_le. lia.
Qed.

Lemma total_medals_within_years_after_1960_witness :
  country_medals_dict (2000, Some "France", 38)
    ∈ records (total_medals sample_db)
  ∧ ∃ gold silver bronze,
      nation_dict (2000, Some "France", gold, silver, bronze, 38)
        ∈ records (total_medal_tally_year_after_1960 sample_db).
Proof.
  assert (country_medals_dict (2000, Some "France", 38)
            ∈ records (total_medals sample_db)) as Hin
    by (apply list_elem_of_In; vm_compute; auto).
  split; [exact Hin|].
  exact (total_medals_within_years_after_1960 sample_db 2000 (Some "France")
           38 Hin).
Defined.

(** X18: for a year of 1960 or later the two tallies agree: a row is
    returned by [total_medal_tally] for that year exactly when it is a row
    of that year returned by [total_medal_tally_year_after_1960]. *)
Theorem total_medal_tally_agrees_with_years_after_1960
    (db : Database) (selected_year : Z) (r : tally.row) :
  1960 ≤ selected_year →
  country_dict r ∈ records (total_medal_tally db selected_year) ↔
  tally.year r = selected_year
  ∧ nation_dict r ∈ records (total_medal_tally_year_after_1960 db).
Proof.
  intros Hy.
  unfold total_medal_tally, total_medal_tally_year_after_1960.
  destruct (athletes db) as [table|] eqn:Ht.
  - rewrite (records_view db table total_medal_tally_year_after_1960_query)
      by done.
    rewrite (elem_of_fmap_inj _ _ _ nation_dict_inj), elem_of_result.
    destruct (in_int64 selected_year) eqn:Hfit.
    + rewrite (records_view db table (total_medal_tally_query selected_year))
        by (done || by rewrite total_medal_tally_binds).
      rewrite (elem_of_fmap_inj _ _ _ country_dict_inj), elem_of_result.
      unfold Query.selected; simpl. split.
      * intros (a & Ha & Hsel & ->). rewrite andb_true_r in Hsel.
        apply Z.eqb_eq in Hsel. split; [done|].
        exists a. split; [done|]. split; [|done].
        rewrite andb_true_r. apply Z.geb_le. lia.
      * intros (Hr & a & Ha & _ & ->).
        exists a. split; [done|]. split; [|done].
        rewrite andb_true_r. by apply Z.eqb_eq.
    + unfold Query.all. rewrite Ht, total_medal_tally_binds, Hfit.
      unfold records; simpl. split; [by intros ?%elem_of_nil|].
      intros (Hr & a & Ha & _ & ->). simpl in Hr.
      rewrite <-Hr in Hfit.
      by rewrite (athletes_Year_int64 db table a Ht Ha) in Hfit.
  - unfold Query.all. rewrite Ht. unfold records; simpl. split.
    + by intros ?%elem_of_nil.
    + by intros [_ ?%elem_of_nil].
Qed.

Lemma total_medal_tally_agrees_with_years_after_1960_witness :
  1960 ≤ 2000
  ∧ (country_dict (tally.columns france)
       ∈ records (total_medal_tally sample_db 2000) ↔
     tally.year (tally.columns france) = 2000
     ∧ nation_dict (tally.columns france)
         ∈ records (total_medal_tally_year_after_1960 sample_db)).
Proof.
  assert (1960 ≤ 2000) as Hle by lia.
  split; [exact Hle|].
  exact (total_medal_tally_agrees_with_years_after_1960 sample_db 2000
           (tally.columns france) Hle).
Defined.

(** ** Exactly the rows asked for *)

(** X19: [host_countries] returns every row with the host flag 1, and
    [entire_data_dump] without a filter every row with more than zero
    medals, each as often as the table holds it; a row with any other flag,
    or with zero or fewer medals, is left out. *)
Theorem host_countries_and_winners_complete
    (db : Database) (table : list Athletes.t) :
  athletes db = Some table →
  ∃ (hosts : list host.row) (winners : list winner.row),
    host_countries db = ok (jsonify (JList (host_dict <$> hosts)))
    ∧ hosts ≡ₚ host.columns
               <$> List.filter (λ a, Athletes.Host a =? 1) table
    ∧ entire_data_dump db None
      = ok (jsonify (JList (athlete_dict <$> winners)))
    ∧ winners ≡ₚ winner.columns
                 <$> List.filter (λ a, Athletes.Medals a >? 0) table.
Proof.
  intros Ht.
  exists (Query.result host_countries_query table),
         (Query.result (entire_data_dump_query None) table).
  split; [|split; [|split]].
  - unfold host_countries. by rewrite (all_athletes_table db table).
  - rewrite (result_Permutation host_countries_query table eq_refl).
    rewrite (List_filter_ext_eq (Query.selected host_countries_query)
               (λ a, Athletes.Host a =? 1)); [done|].
    intros a. unfold Query.selected; simpl. by rewrite andb_true_r.
  - unfold entire_data_dump. by rewrite (all_athletes_table db table).
  - rewrite (result_Permutation (entire_data_dump_query None) table eq_refl).
    rewrite (List_filter_ext_eq
               (Query.selected (entire_data_dump_query None))
               (λ a, Athletes.Medals a >? 0)); [done|].
    intros a. rewrite entire_data_dump_selected. by rewrite andb_true_r.
Qed.

Lemma host_countries_and_winners_complete_witness :
  athletes sample_db = Some sample_athletes
  ∧ ∃ (hosts : list host.row) (winners : list winner.row),
      host_countries sample_db = ok (jsonify (JList (host_dict <$> hosts)))
      ∧ hosts ≡ₚ host.columns
                 <$> List.filter (λ a, Athletes.Host a =? 1) sample_athletes
      ∧ entire_data_dump sample_db None
        = ok (jsonify (JList (athlete_dict <$> winners)))
      ∧ winners ≡ₚ winner.columns
                   <$> List.filter (λ a, Athletes.Medals a >? 0)
                                   sample_athletes.
Proof.
  split; [reflexivity|].
  apply (host_countries_and_winners_complete sample_db sample_athletes).
  reflexivity.
Defined.

(** X20: on a table without rows every view that queries the database
    answers with the empty list and status 200, provided the integer of the
    path, if it has one, fits 64 bits. *)
Theorem empty_table_empty_list
    (templates : Templates) (db : Database) (path : list string)
    (e : endpoint.t) (args : list argument) :
  athletes db = Some [] →
  match_request path = Some (e, args) →
  queries_database e = true →
  forallb binds args = true →
  full_dispatch_request templates db path = ok (jsonify (JList [])).
Proof.
  intros Ht Hm He Hb. unfold full_dispatch_request. rewrite Hm.
  apply url_map_view_accepts in Hm.
  destruct (dispatch_request_binds templates db e args Hm He)
    as (R & ? & q & f & -> & Hq).
  rewrite (all_athletes_table db [] q Ht) by (by rewrite Hq).
  unfold Query.result, Query.rows; simpl.
  by destruct (Query.is_distinct q).
Qed.

Lemma empty_table_empty_list_witness :
  athletes (athletes_db [] I) = Some []
  ∧ full_dispatch_request (λ _, None) (athletes_db [] I)
      ["api"; "medals-tally"; "2004"]
    = ok (jsonify (JList [])).
Proof.
  split; [reflexivity|].
  apply (empty_table_empty_list (λ _, None) (athletes_db [] I)
           ["api"; "medals-tally"; "2004"]
           endpoint.total_medal_tally [IntArg 2004]); reflexivity.
Defined.
